(** * agent.py: the Flask facade in front of the BigQuery agent

    A shallow embedding of [src/agent.py]: the module-level configuration
    ([load_dotenv], [ROOT_AGENT_MODEL], [root_agent]), the static chat page
    ([CHAT_UI_HTML], [serve_ui]) and the [POST /agent] view function
    ([agent_handler]).

    Python values are an inductive type, Python's exceptions are explicit
    results, and the view function runs in a small state-and-exception monad
    over the state of the process: the module globals, the opaque state of the
    hosted agent runtime, and a ghost log of the calls made to it.  The two
    libraries the handler leans on, the agent runtime and the JSON provider
    of the web framework, are parameters. *)

From Stdlib Require Import ZArith String Ascii List Bool Lia.
From Stdlib Require Import Floats.SpecFloat.
From stdpp Require Import base option strings gmap.
Import ListNotations.

Set Warnings "-register-all".
Local Open Scope Z_scope.
Local Open Scope string_scope.

(** ** Exceptions and results *)

(** A raised exception: its class name, whether the class derives from
    [Exception] (everything but the process-control exceptions
    [SystemExit], [KeyboardInterrupt] and [GeneratorExit], which derive from
    [BaseException] only), and what [str(e)] returns.  The record stands for
    an exception whose [__str__] returns, as that of every built-in class
    and of the web framework's errors does; an exception whose [__str__]
    itself raises is outside this model. *)
Record pyexc : Type := {
  exc_type : string;
  isinstance_Exception : bool;
  exc_str : string
}.

Definition AttributeError (msg : string) : pyexc :=
  {| exc_type := "AttributeError"; isinstance_Exception := true; exc_str := msg |}.

Definition TypeError (msg : string) : pyexc :=
  {| exc_type := "TypeError"; isinstance_Exception := true; exc_str := msg |}.

(** [str(e)] *)
Definition str (e : pyexc) : string := exc_str e.

Inductive result (A : Type) : Type :=
| Return (a : A)
| Raise (e : pyexc).
Arguments Return {A} a.
Arguments Raise {A} e.

(** ** Python values *)

(** The values that flow through the handler: what [request.json] yields
    (None, bool, int, float, str, list, dict, as the JSON decoder builds
    them) and what the agent runtime may hand back, which can be an instance
    of any class ([PyObject], with its class name and its attributes).
    Reading an attribute of an instance runs code when the attribute is a
    property: each attribute is recorded with what reading it comes to, a
    value or a raised exception.  A dict keeps its entries in insertion
    order; lookup takes the first entry with the key. *)
Inductive pyval : Type :=
| PyNone
| PyBool (b : bool)
| PyInt (n : Z)
| PyFloat (x : spec_float)
| PyStr (s : string)
| PyList (items : list pyval)
| PyDict (entries : list (string * pyval))
| PyObject (cls : string) (attrs : list (string * result pyval)).

(** [type(v).__name__] *)
Definition type_name (v : pyval) : string :=
  match v with
  | PyNone => "NoneType"
  | PyBool _ => "bool"
  | PyInt _ => "int"
  | PyFloat _ => "float"
  | PyStr _ => "str"
  | PyList _ => "list"
  | PyDict _ => "dict"
  | PyObject cls _ => cls
  end.

(** [bool(v)]: Python's truth value testing.  A float is false exactly when
    it is a zero (of either sign); NaN is true.  An instance of a class
    without [__bool__] and [__len__] is true. *)
Definition truthy (v : pyval) : bool :=
  match v with
  | PyNone => false
  | PyBool b => b
  | PyInt n => negb (Z.eqb n 0)
  | PyFloat (S754_zero _) => false
  | PyFloat _ => true
  | PyStr EmptyString => false
  | PyStr (String _ _) => true
  | PyList [] => false
  | PyList (_ :: _) => true
  | PyDict [] => false
  | PyDict (_ :: _) => true
  | PyObject _ _ => true
  end.

(** First entry of an entry list with the given key. *)
Fixpoint assoc (k : string) (entries : list (string * pyval)) : option pyval :=
  match entries with
  | [] => None
  | (k', v) :: rest => if String.eqb k k' then Some v else assoc k rest
  end.

(** The attribute of an instance with the given name, if it has one. *)
Fixpoint find_attr (k : string) (attrs : list (string * result pyval))
  : option (result pyval) :=
  match attrs with
  | [] => None
  | (k', outcome) :: rest => if String.eqb k k' then Some outcome else find_attr k rest
  end.

(** [obj.<attr>] fails in the same way for every object without the
    attribute. *)
Definition no_attribute (v : pyval) (attr : string) : pyexc :=
  AttributeError ("'" +:+ type_name v +:+ "' object has no attribute '" +:+ attr +:+ "'").

(** [data.get(key)]: only a dict has the method; a missing key gives None. *)
Definition py_get (data : pyval) (key : string) : result pyval :=
  match data with
  | PyDict entries =>
      Return (match assoc key entries with Some v => v | None => PyNone end)
  | _ => Raise (no_attribute data "get")
  end.

(** [obj.<attr>]: what reading the attribute comes to (its value, or
    whatever the property behind it raises), or the AttributeError of an
    object without it. *)
Definition py_getattr (obj : pyval) (attr : string) : result pyval :=
  match obj with
  | PyObject _ attrs =>
      match find_attr attr attrs with
      | Some outcome => outcome
      | None => Raise (no_attribute obj attr)
      end
  | _ => Raise (no_attribute obj attr)
  end.

(** ** Responses *)

(** The body of a response: a page, or the JSON text the application's JSON
    provider writes for a document. *)
Inductive Body : Type :=
| Html (text : string)
| Json (v : pyval).

Record Response : Type := {
  body : Body;
  status_code : Z;
  mimetype : string
}.

(** The JSON provider of the application ([app.json]), which [jsonify]
    hands the document to.  What it does with class instances, with very
    large numbers or with deeply nested data depends on the provider and on
    the interpreter, so it is left open: [dumps_error v] is the exception
    the provider raises on the document [v], or None when it writes it. *)
Class JSONProvider : Type := {
  dumps_error : pyval -> option pyexc
}.

(** An object all of whose values are strings.  Every provider writes
    those. *)
Definition str_object (v : pyval) : bool :=
  match v with
  | PyDict entries =>
      forallb (fun entry => match snd entry with PyStr _ => true | _ => false end)
        entries
  | _ => false
  end.

(** [jsonify(v)]: a 200 response carrying the JSON text of [v], or the
    exception of the provider. *)
Definition jsonify `{JSONProvider} (v : pyval) : result Response :=
  match (if str_object v then None else dumps_error v) with
  | Some e => Raise e
  | None =>
      Return {| body := Json v; status_code := 200; mimetype := "application/json" |}
  end.

(** A view function returning the pair [(response, status)]: the framework
    sets the status of the response. *)
Definition with_status (r : Response) (status : Z) : Response :=
  {| body := body r; status_code := status; mimetype := mimetype r |}.

(** A provider with no encoding for class instances: it raises the
    encoder's TypeError for the first instance it meets in the document,
    and writes everything else. *)
Fixpoint first_instance (v : pyval) : option string :=
  match v with
  | PyObject cls _ => Some cls
  | PyList items =>
      (fix walk (l : list pyval) : option string :=
         match l with
         | [] => None
         | x :: l' =>
             match first_instance x with
             | Some c => Some c
             | None => walk l'
             end
         end) items
  | PyDict entries =>
      (fix walk (l : list (string * pyval)) : option string :=
         match l with
         | [] => None
         | (_, x) :: l' =>
             match first_instance x with
             | Some c => Some c
             | None => walk l'
             end
         end) entries
  | _ => None
  end.

Definition plain_provider : JSONProvider :=
  {| dumps_error := fun v =>
       match first_instance v with
       | Some cls =>
           Some (TypeError ("Object of type " +:+ cls +:+ " is not JSON serializable"))
       | None => None
       end |}.

(** ** The incoming request *)

(** What the [request.json] property evaluates to for the request: the
    decoded body, or the exception the framework raises when the body is not
    JSON (wrong content type, undecodable text). *)
Record Request : Type := {
  json : result pyval
}.

(** ** Module-level configuration *)

(** [Agent(name=..., model=..., description=..., instruction=..., tools=[...])] *)
Record Agent (Tool : Type) : Type := {
  name : string;
  model : string;
  description : string;
  instruction : string;
  tools : list Tool
}.
Arguments name {Tool} _.
Arguments model {Tool} _.
Arguments description {Tool} _.
Arguments instruction {Tool} _.
Arguments tools {Tool} _.

(** [load_dotenv()]: the variables of the [.env] file are added to
    [os.environ]; a variable the process already has keeps its value. *)
Definition load_dotenv (dotenv environ : gmap string string) : gmap string string :=
  environ ∪ dotenv.

(** [os.environ.get(key, default)] *)
Definition environ_get (environ : gmap string string) (key dflt : string) : string :=
  match environ !! key with
  | Some value => value
  | None => dflt
  end.

(** The names the module binds when it is imported. *)
Record Globals (Tool : Type) : Type := {
  ROOT_AGENT_MODEL : string;
  root_agent : Agent Tool
}.
Arguments ROOT_AGENT_MODEL {Tool} _.
Arguments root_agent {Tool} _.

(** The state of the running process: the module globals, the state of the
    hosted agent runtime behind [root_agent] (opaque to this file), and a
    ghost log of the arguments [generate_response] was called with, oldest
    first. *)
Record Process (Tool Runtime : Type) : Type := {
  globals : Globals Tool;
  runtime : Runtime;
  invocations : list pyval
}.
Arguments globals {Tool Runtime} _.
Arguments runtime {Tool Runtime} _.
Arguments invocations {Tool Runtime} _.

(** ** The response schema *)

(** The two bodies the handler builds. *)
Definition ok_response (text : pyval) : Response :=
  {| body := Json (PyDict [("response", text); ("status", PyStr "ok")]);
     status_code := 200;
     mimetype := "application/json" |}.

Definition error_response (status : Z) (message : string) : Response :=
  {| body := Json (PyDict [("error", PyStr message)]);
     status_code := status;
     mimetype := "application/json" |}.

(** A JSON object with exactly the keys [response] and [status], the latter
    mapped to the string [ok]. *)
Definition is_success_body (b : Body) : bool :=
  match b with
  | Json (PyDict [(k1, _); (k2, PyStr v2)]) =>
      String.eqb k1 "response" && String.eqb k2 "status" && String.eqb v2 "ok"
  | _ => false
  end.

(** A JSON object with the single key [error], mapped to a string. *)
Definition is_error_body (b : Body) : bool :=
  match b with
  | Json (PyDict [(k, PyStr _)]) => String.eqb k "error"
  | _ => false
  end.

Definition well_formed (r : Response) : bool :=
  (Z.eqb (status_code r) 200 && is_success_body (body r))
  || ((Z.eqb (status_code r) 400 || Z.eqb (status_code r) 500)
      && is_error_body (body r)).

(** ** The chat page *)

Definition newline : string := String (ascii_of_nat 10) EmptyString.

(** In the lines of [CHAT_UI_HTML] below the character [~], which the page
    does not use, stands for the double quote. *)
Fixpoint with_double_quotes (s : string) : string :=
  match s with
  | EmptyString => EmptyString
  | String c rest =>
      String (if Ascii.eqb c "~" then ascii_of_nat 34 else c) (with_double_quotes rest)
  end.

(** The triple-quoted literal: it opens with the line break after the
    opening quotes and ends with the one after the closing html tag. *)
Definition CHAT_UI_HTML : string :=
  with_double_quotes (String.concat newline
    [EmptyString;
     "<!DOCTYPE html>";
     "<html lang=~en~>";
     "<head>";
     "    <meta charset=~UTF-8~>";
     "    <meta name=~viewport~ content=~width=device-width, initial-scale=1.0~>";
     "    <title>Dixie Agent</title>";
     "    <script src=~https://cdn.tailwindcss.com~></script>";
     "    <style>";
     "        body { font-family: 'Inter', sans-serif; }";
     "    </style>";
     "</head>";
     "<body class=~bg-gray-100 dark:bg-gray-900 text-gray-900 dark:text-gray-100 flex items-center justify-center min-h-screen~>";
     "    <div class=~w-full max-w-2xl bg-white dark:bg-gray-800 rounded-lg shadow-lg p-6 m-4~>";
     "        <h1 class=~text-2xl font-bold text-center mb-6~>Dixie Agent</h1>";
     "        ";
     "        <!-- Chat History -->";
     "        <div id=~chat-history~ class=~h-96 overflow-y-auto mb-4 p-4 border border-gray-200 dark:border-gray-700 rounded-lg bg-gray-50 dark:bg-gray-700~>";
     "            <div class=~flex items-start mb-4~>";
     "                <div class=~bg-blue-500 text-white rounded-xl p-3 shadow-md~>";
     "                    Hello! I am Dixie, an AI recruiting assistant. How can I help you find talent today?";
     "                </div>";
     "            </div>";
     "        </div>";
     EmptyString;
     "        <!-- Input Form -->";
     "        <div class=~flex items-center space-x-2~>";
     "            <input type=~text~ id=~user-input~ placeholder=~Type your message...~ class=~flex-grow p-3 border border-gray-300 dark:border-gray-600 rounded-lg focus:outline-none focus:ring-2 focus:ring-blue-500 dark:bg-gray-900~>";
     "            <button id=~send-button~ class=~bg-blue-500 hover:bg-blue-600 text-white font-bold py-3 px-6 rounded-lg transition duration-200 ease-in-out~>";
     "                Send";
     "            </button>";
     "        </div>";
     "        ";
     "    </div>";
     EmptyString;
     "    <script>";
     "        const chatHistory = document.getElementById('chat-history');";
     "        const userInput = document.getElementById('user-input');";
     "        const sendButton = document.getElementById('send-button');";
     "        ";
     "        // This is a more robust way to handle a root URL";
     "        const backendUrl = window.location.origin;";
     EmptyString;
     "        // Function to create a message bubble";
     "        function addMessage(text, isUser) {";
     "            const messageDiv = document.createElement('div');";
     "            messageDiv.className = `flex mb-4 ${isUser ? 'justify-end' : 'justify-start'}`;";
     "            ";
     "            const bubbleDiv = document.createElement('div');";
     "            bubbleDiv.className = `max-w-md p-3 rounded-xl shadow-md ${isUser ? 'bg-blue-500 text-white' : 'bg-gray-200 dark:bg-gray-600 text-gray-900 dark:text-white'}`;";
     "            bubbleDiv.textContent = text;";
     "            ";
     "            messageDiv.appendChild(bubbleDiv);";
     "            chatHistory.appendChild(messageDiv);";
     "            chatHistory.scrollTop = chatHistory.scrollHeight; // Scroll to the bottom";
     "        }";
     EmptyString;
     "        async function sendMessage() {";
     "            const query = userInput.value.trim();";
     "            if (!query) return;";
     EmptyString;
     "            addMessage(query, true); // Add user's message to chat";
     "            userInput.value = ''; // Clear input field";
     EmptyString;
     "            // Show a loading indicator";
     "            addMessage(~Thinking...~, false);";
     "            const thinkingMessage = chatHistory.lastChild.querySelector('div');";
     "            ";
     "            try {";
     "                const apiPath = '/agent';";
     EmptyString;
     "                const response = await fetch(backendUrl + apiPath, {";
     "                    method: 'POST',";
     "                    headers: {";
     "                        'Content-Type': 'application/json'";
     "                    },";
     "                    body: JSON.stringify({ query: query })";
     "                });";
     EmptyString;
     "                const data = await response.json();";
     EmptyString;
     "                // Remove loading indicator and display actual response";
     "                chatHistory.removeChild(chatHistory.lastChild);";
     "                if (response.ok) {";
     "                    addMessage(data.response, false);";
     "                } else {";
     "                    addMessage(`Error: ${data.error}`, false);";
     "                }";
     EmptyString;
     "            } catch (error) {";
     "                chatHistory.removeChild(chatHistory.lastChild);";
     "                addMessage(`An error occurred: ${error.message}`, false);";
     "            }";
     "        }";
     EmptyString;
     "        sendButton.addEventListener('click', sendMessage);";
     "        userInput.addEventListener('keypress', (e) => {";
     "            if (e.key === 'Enter') {";
     "                sendMessage();";
     "            }";
     "        });";
     "    </script>";
     "</body>";
     "</html>";
     EmptyString]).

(** [needle in haystack] *)
Fixpoint str_in (needle haystack : string) : bool :=
  String.prefix needle haystack ||
  match haystack with
  | EmptyString => false
  | String _ rest => str_in needle rest
  end.

(** The template engine splits a source at the openers of its expression,
    statement and comment blocks. *)
Definition has_template_syntax (source : string) : bool :=
  str_in "{{" source || str_in "{%" source || str_in "{#" source.

(** The engine drops one line break at the very end of a source. *)
Fixpoint strip_trailing_newline (s : string) : string :=
  match s with
  | EmptyString => EmptyString
  | String c rest =>
      match rest with
      | EmptyString => if Ascii.eqb c (ascii_of_nat 10) then EmptyString else s
      | String _ _ => String c (strip_trailing_newline rest)
      end
  end.

(** [render_template_string(source)] for a source without template syntax
    ([has_template_syntax source = false], which holds of [CHAT_UI_HTML]):
    the text is literal data and is rendered as it stands, less the final
    line break. *)
Definition render_template_string (source : string) : string :=
  strip_trailing_newline source.

Section Facade.

(** [tools.query_bigquery] and [prompt.BIGQUERY_PROMPT] come from two
    modules of the repository that this file imports. *)
Context {Tool : Type}.
Variable query_bigquery : Tool.
Variable BIGQUERY_PROMPT : string.

(** [root_agent.generate_response(query)], supplied by the hosted agent
    framework: from the configured agent, the query and the state of the
    runtime, the object it returns or the exception it raises, and the
    state it leaves behind. *)
Context {Runtime : Type}.
Variable generate_response :
  Agent Tool -> pyval -> Runtime -> result pyval * Runtime.

(** The JSON provider the application runs with. *)
Context `{JSONProvider}.

(** The module body up to [root_agent = Agent(...)], run once at import. *)
Definition startup (dotenv environ : gmap string string) : Globals Tool :=
  let environ := load_dotenv dotenv environ in
  let ROOT_AGENT_MODEL := environ_get environ "ROOT_AGENT_MODEL" "gemini-2.5-flash" in
  {| ROOT_AGENT_MODEL := ROOT_AGENT_MODEL;
     root_agent :=
       {| name := "bigquery_agent";
          model := ROOT_AGENT_MODEL;
          description := "An agent that understands questions about a BigQuery database, generates SQL, executes it, and provides answers.";
          instruction := BIGQUERY_PROMPT;
          tools := [query_bigquery] |} |}.

Definition boot (dotenv environ : gmap string string) (r : Runtime)
  : Process Tool Runtime :=
  {| globals := startup dotenv environ; runtime := r; invocations := [] |}.

(** *** The monad of view functions *)

Definition M (A : Type) : Type :=
  Process Tool Runtime -> result A * Process Tool Runtime.

Definition ret {A} (a : A) : M A := fun p => (Return a, p).

Definition bind {A B} (m : M A) (k : A -> M B) : M B :=
  fun p =>
    match m p with
    | (Return a, p') => k a p'
    | (Raise e, p') => (Raise e, p')
    end.

Definition lift {A} (r : result A) : M A := fun p => (r, p).

(** [try: m  except Exception as e: handler(e)]: an exception whose class
    does not derive from [Exception] is not caught. *)
Definition try_except_Exception {A} (m : M A) (handler : pyexc -> M A) : M A :=
  fun p =>
    match m p with
    | (Return a, p') => (Return a, p')
    | (Raise e, p') =>
        if isinstance_Exception e then handler e p' else (Raise e, p')
    end.

(** The call [root_agent.generate_response(query)]: reads the global
    [root_agent], runs the runtime, and is recorded in the ghost log. *)
Definition root_agent_generate_response (query : pyval) : M pyval :=
  fun p =>
    let (r, rt) := generate_response (root_agent (globals p)) query (runtime p) in
    (r, {| globals := globals p;
           runtime := rt;
           invocations := invocations p ++ [query] |}).

Notation "'do' x <- m ; k" := (bind m (fun x => k))
  (at level 10, x name, m at level 100, k at level 200).

(** *** [POST /agent] *)

Definition agent_handler (request : Request) : M Response :=
  try_except_Exception
    (do data <- lift (json request);
     do user_query <- lift (py_get data "query");
     if negb (truthy user_query) then
       do r <- lift (jsonify (PyDict [("error", PyStr "Missing 'query' field in request")]));
       ret (with_status r 400)
     else
       do response_data <- root_agent_generate_response user_query;
       do response_text <- lift (py_getattr response_data "text");
       lift (jsonify (PyDict [("response", response_text); ("status", PyStr "ok")])))
    (fun e =>
       do r <- lift (jsonify (PyDict [("error", PyStr (str e))]));
       ret (with_status r 500)).

(** *** [GET /] *)

(** A view function that returns a string: the framework wraps it in a
    200 response of type text/html. *)
Definition serve_ui : M Response :=
  ret {| body := Html (render_template_string CHAT_UI_HTML);
         status_code := 200;
         mimetype := "text/html" |}.

(** *** The two routes *)

Inductive http_request : Type :=
| GET_root
| POST_agent (request : Request).

Definition dispatch_request (rq : http_request) : M Response :=
  match rq with
  | GET_root => serve_ui
  | POST_agent request => agent_handler request
  end.

(** The process handling a sequence of requests, one after the other. *)
Fixpoint serve (rqs : list http_request) (p : Process Tool Runtime)
  : list (result Response) * Process Tool Runtime :=
  match rqs with
  | [] => ([], p)
  | rq :: rest =>
      let (out, p') := dispatch_request rq p in
      let (outs, p'') := serve rest p' in
      (out :: outs, p'')
  end.

(** *** What a request can come to *)

(** The process after one call of the runtime that left it in [rt]. *)
Definition after_call (p : Process Tool Runtime) (query : pyval) (rt : Runtime)
  : Process Tool Runtime :=
  {| globals := globals p;
     runtime := rt;
     invocations := invocations p ++ [query] |}.

(** What the [except Exception] clause makes of an exception raised in the
    [try] block: the 500 response when its class derives from [Exception];
    otherwise the clause does not apply and the exception goes on. *)
Definition except_Exception (e : pyexc) : result Response :=
  if isinstance_Exception e
  then Return (error_response 500 (str e))
  else Raise e.

(** What the rest of the [try] block makes of the outcome of the call of
    the runtime: read [text], encode the answer. *)
Definition answer (r : result pyval) : result Response :=
  match r with
  | Return response_data =>
      match py_getattr response_data "text" with
      | Return response_text =>
          match jsonify (PyDict [("response", response_text);
                                 ("status", PyStr "ok")]) with
          | Return response => Return response
          | Raise e => except_Exception e
          end
      | Raise e => except_Exception e
      end
  | Raise e => except_Exception e
  end.

(** The ways a [POST /agent] request can end, from the process [p] it
    starts in: the result of the view function and the process it leaves.
    Either the runtime was not called and the process is as before, or it
    was called once, with [query], and the process is [after_call]. *)
Inductive handled (p : Process Tool Runtime)
  : result Response -> Process Tool Runtime -> Prop :=
| Rejected :
    handled p (Return (error_response 400 "Missing 'query' field in request")) p
| FailedBeforeCall (message : string) :
    handled p (Return (error_response 500 message)) p
| EscapedBeforeCall (e : pyexc) :
    isinstance_Exception e = false ->
    handled p (Raise e) p
| Answered (query response_data response_text : pyval) (rt : Runtime) :
    generate_response (root_agent (globals p)) query (runtime p)
      = (Return response_data, rt) ->
    py_getattr response_data "text" = Return response_text ->
    handled p (Return (ok_response response_text)) (after_call p query rt)
| FailedAfterCall (query : pyval) (r : result pyval) (rt : Runtime) (message : string) :
    generate_response (root_agent (globals p)) query (runtime p) = (r, rt) ->
    handled p (Return (error_response 500 message)) (after_call p query rt)
| EscapedAfterCall (query : pyval) (r : result pyval) (e : pyexc) (rt : Runtime) :
    generate_response (root_agent (globals p)) query (runtime p) = (r, rt) ->
    isinstance_Exception e = false ->
    handled p (Raise e) (after_call p query rt).

End Facade.

(** ** Sample runtimes and requests *)

(** A runtime that answers every query with a reply object whose text
    numbers the call: no two calls give the same text twice in a row. *)
Definition numbering_runtime
  (agent : Agent unit) (query : pyval) (calls : nat) : result pyval * nat :=
  (Return (PyObject "Reply"
             [("text", Return (PyStr (if Nat.eqb calls 0
                                      then "first answer" else "later answer")))]),
   S calls).

Definition QuotaExceeded : pyexc :=
  {| exc_type := "RuntimeError"; isinstance_Exception := true;
     exc_str := "quota exceeded" |}.

Definition SystemExit : pyexc :=
  {| exc_type := "SystemExit"; isinstance_Exception := false; exc_str := "1" |}.

(** A runtime whose call fails with an ordinary error. *)
Definition failing_runtime
  (agent : Agent unit) (query : pyval) (calls : nat) : result pyval * nat :=
  (Raise QuotaExceeded, S calls).

(** A runtime whose call is interrupted by the exit of the worker, as when
    the host server aborts a request that hangs. *)
Definition exiting_runtime
  (agent : Agent unit) (query : pyval) (calls : nat) : result pyval * nat :=
  (Raise SystemExit, S calls).

(** A runtime whose reply object carries something the provider
    [plain_provider] cannot encode. *)
Definition opaque_runtime
  (agent : Agent unit) (query : pyval) (calls : nat) : result pyval * nat :=
  (Return (PyObject "Reply" [("text", Return (PyObject "Content" []))]), S calls).

Definition KeyboardInterrupt : pyexc :=
  {| exc_type := "KeyboardInterrupt"; isinstance_Exception := false;
     exc_str := EmptyString |}.

Definition KeyError : pyexc :=
  {| exc_type := "KeyError"; isinstance_Exception := true;
     exc_str := "'candidates'" |}.

(** A runtime whose reply object computes its [text] in a property, which
    fails. *)
Definition lazy_runtime
  (agent : Agent unit) (query : pyval) (calls : nat) : result pyval * nat :=
  (Return (PyObject "Reply" [("text", Raise KeyError)]), S calls).

(** A runtime whose call is interrupted from the keyboard. *)
Definition interrupted_runtime
  (agent : Agent unit) (query : pyval) (calls : nat) : result pyval * nat :=
  (Raise KeyboardInterrupt, S calls).

Definition sample_process : Process unit nat :=
  boot tt "You answer questions about the warehouse." ∅ ∅ 0%nat.

Definition open_roles_query : string := "How many open roles are there?".

Definition open_roles_request : Request :=
  {| json := Return (PyDict [("query", PyStr open_roles_query)]) |}.

Definition zero_query_request : Request :=
  {| json := Return (PyDict [("query", PyInt 0)]) |}.

Definition pro_environ : gmap string string :=
  {[ "ROOT_AGENT_MODEL" := "gemini-2.5-pro" ]}.

Definition empty_object_request : Request :=
  {| json := Return (PyDict []) |}.

Definition null_body_request : Request :=
  {| json := Return PyNone |}.

Definition BadRequest : pyexc :=
  {| exc_type := "BadRequest"; isinstance_Exception := true;
     exc_str := "400 Bad Request: The browser (or proxy) sent a request that this server could not understand." |}.

Definition malformed_request : Request :=
  {| json := Raise BadRequest |}.

(** ** The ways through the handler *)

Section Branches.

Context {Tool : Type} {Runtime : Type}.
Variable generate_response :
  Agent Tool -> pyval -> Runtime -> result pyval * Runtime.
Context `{JSONProvider}.

(** The four ways through the handler, by what the request is. *)
Inductive branch (request : Request) (p : Process Tool Runtime) : Prop :=
| NoJson (e : pyexc) :
    json request = Raise e ->
    agent_handler generate_response request p = (except_Exception e, p) ->
    branch request p
| NotAnObject (data : pyval) :
    json request = Return data ->
    (forall fields, data <> PyDict fields) ->
    agent_handler generate_response request p
    = (Return (error_response 500 (str (no_attribute data "get"))), p) ->
    branch request p
| Gate (fields : list (string * pyval)) (q : pyval) :
    json request = Return (PyDict fields) ->
    py_get (PyDict fields) "query" = Return q ->
    truthy q = false ->
    agent_handler generate_response request p
    = (Return (error_response 400 "Missing 'query' field in request"), p) ->
    branch request p
| Call (fields : list (string * pyval)) (q : pyval)
    (r : result pyval) (rt : Runtime) :
    json request = Return (PyDict fields) ->
    assoc "query" fields = Some q ->
    truthy q = true ->
    generate_response (root_agent (globals p)) q (runtime p) = (r, rt) ->
    agent_handler generate_response request p = (answer r, after_call p q rt) ->
    branch request p.

End Branches.

(** ** Which requests reach the runtime *)

(** The value a request hands to the runtime: the [query] of a [POST /agent]
    whose body is an object, when it is true in Python's sense.  Every other
    request hands it nothing. *)
Definition forwarded_query (rq : http_request) : option pyval :=
  match rq with
  | GET_root => None
  | POST_agent request =>
      match json request with
      | Return (PyDict fields) =>
          match assoc "query" fields with
          | Some v => if truthy v then Some v else None
          | None => None
          end
      | _ => None
      end
  end.

(** The state a runtime is left in by a series of calls on one agent. *)
Definition after_calls {Tool Runtime : Type}
    (generate_response : Agent Tool -> pyval -> Runtime -> result pyval * Runtime)
    (agent : Agent Tool) (queries : list pyval) (rt : Runtime) : Runtime :=
  fold_left (fun rt query => snd (generate_response agent query rt)) queries rt.

(** More sample requests: a [query] that is a number, and the open-roles
    query sent along with fields the handler does not look at. *)
Definition number_query_request : Request :=
  {| json := Return (PyDict [("query", PyInt 5)]) |}.

Definition annotated_request : Request :=
  {| json := Return (PyDict [("session", PyInt 7);
                             ("query", PyStr open_roles_query);
                             ("debug", PyBool true)]) |}.

Definition dotenv_flash_lite : gmap string string :=
  {[ "ROOT_AGENT_MODEL" := "gemini-2.5-flash-lite" ]}.

(** * Properties *)

(** ** Values, encoding and the page *)

Lemma truthy_nonempty_str (s : string) :
  s <> EmptyString -> truthy (PyStr s) = true.
Proof. destruct s as [|c s']; [congruence | reflexivity]. Qed.

(** What [jsonify] returns, when it returns, is the 200 response with the
    document for a body. *)
Lemma jsonify_Return `{JSONProvider} (v : pyval) (r : Response) :
  jsonify v = Return r ->
  r = {| body := Json v; status_code := 200; mimetype := "application/json" |}.
Proof.
  unfold jsonify.
  destruct (if str_object v then None else dumps_error v);
    intros Heq; inversion Heq; reflexivity.
Qed.

(** The answer to a reply whose text is a string is written by every
    provider. *)
Lemma jsonify_ok_str `{JSONProvider} (text : string) :
  jsonify (PyDict [("response", PyStr text); ("status", PyStr "ok")])
  = Return (ok_response (PyStr text)).
Proof. reflexivity. Qed.

Lemma prefix_split (needle haystack : string) :
  String.prefix needle haystack = true ->
  exists rest, haystack = needle +:+ rest.
Proof.
  revert haystack.
  induction needle as [| c needle IH]; intros haystack Hpre.
  - exists haystack. reflexivity.
  - destruct haystack as [| c' haystack]; cbn in Hpre; [discriminate |].
    destruct (ascii_dec c c') as [<- | _]; [| discriminate].
    destruct (IH haystack Hpre) as [rest ->].
    exists rest. reflexivity.
Qed.

(** [str_in] finds only what is there. *)
Lemma str_in_sound (needle haystack : string) :
  str_in needle haystack = true ->
  exists before after, haystack = before +:+ needle +:+ after.
Proof.
  induction haystack as [| c haystack IH]; cbn [str_in]; intros Hin.
  - apply orb_true_iff in Hin as [Hpre | Hfalse]; [| discriminate].
    destruct (prefix_split _ _ Hpre) as [rest Hrest].
    exists EmptyString, rest. exact Hrest.
  - apply orb_true_iff in Hin as [Hpre | Hrest].
    + destruct (prefix_split _ _ Hpre) as [rest Hsplit].
      exists EmptyString, rest. exact Hsplit.
    + destruct (IH Hrest) as (before & after & ->).
      exists (String c before), after. reflexivity.
Qed.

Lemma CHAT_UI_HTML_is_literal : has_template_syntax CHAT_UI_HTML = false.
Proof. vm_compute. reflexivity. Qed.

Lemma page_has_title :
  str_in "Dixie Agent" (render_template_string CHAT_UI_HTML) = true.
Proof. vm_compute. reflexivity. Qed.

Section FacadeProperties.

Context {Tool : Type} {Runtime : Type}.
Variable generate_response :
  Agent Tool -> pyval -> Runtime -> result pyval * Runtime.
Context `{JSONProvider}.

Ltac run_handler :=
  unfold agent_handler, try_except_Exception, bind, lift, ret,
    root_agent_generate_response.

(** *** The validation gate *)

(** A body that is an object whose [query] is false in Python's sense is
    answered 400, and the process is left as it was. *)
Lemma handler_rejects (request : Request) (p : Process Tool Runtime)
    (fields : list (string * pyval)) (user_query : pyval) :
  json request = Return (PyDict fields) ->
  py_get (PyDict fields) "query" = Return user_query ->
  truthy user_query = false ->
  agent_handler generate_response request p
  = (Return (error_response 400 "Missing 'query' field in request"), p).
Proof.
  intros Hjson Hget Hfalsy. run_handler.
  rewrite Hjson, Hget, Hfalsy. reflexivity.
Qed.

(** A body that is an object with a true [query] goes to the runtime, once;
    what comes back decides the result. *)
Lemma handler_invokes (request : Request) (p : Process Tool Runtime)
    (fields : list (string * pyval)) (user_query : pyval) :
  json request = Return (PyDict fields) ->
  py_get (PyDict fields) "query" = Return user_query ->
  truthy user_query = true ->
  agent_handler generate_response request p
  = (answer (fst (generate_response (root_agent (globals p)) user_query
                    (runtime p))),
     after_call p user_query
       (snd (generate_response (root_agent (globals p)) user_query
               (runtime p)))).
Proof.
  intros Hjson Hget Htruthy. run_handler.
  rewrite Hjson, Hget, Htruthy. cbn [negb].
  destruct (generate_response _ _ _) as [[response_data | e] rt];
    cbn [fst snd answer].
  - destruct (py_getattr response_data "text") as [response_text | e].
    + destruct (jsonify (PyDict [("response", response_text);
                                 ("status", PyStr "ok")])) as [response | e].
      * reflexivity.
      * unfold except_Exception.
        destruct (isinstance_Exception e); reflexivity.
    + unfold except_Exception.
      destruct (isinstance_Exception e); reflexivity.
  - unfold except_Exception.
    destruct (isinstance_Exception e); reflexivity.
Qed.

(** A body that is not an object fails at [data.get]. *)
Lemma handler_not_an_object (request : Request) (p : Process Tool Runtime)
    (data : pyval) :
  json request = Return data ->
  (forall fields, data <> PyDict fields) ->
  agent_handler generate_response request p
  = (Return (error_response 500 (str (no_attribute data "get"))), p).
Proof.
  intros Hjson Hobj. run_handler. rewrite Hjson.
  destruct data; try reflexivity.
  exfalso. eapply Hobj. reflexivity.
Qed.

(** [request.json] itself failing. *)
Lemma handler_no_json (request : Request) (p : Process Tool Runtime)
    (e : pyexc) :
  json request = Raise e ->
  agent_handler generate_response request p = (except_Exception e, p).
Proof.
  intros Hjson. run_handler. rewrite Hjson. unfold except_Exception.
  destruct (isinstance_Exception e); reflexivity.
Qed.

(** What [data.get('query')] gives on an object. *)
Lemma py_get_query (fields : list (string * pyval)) :
  py_get (PyDict fields) "query"
  = Return (match assoc "query" fields with Some v => v | None => PyNone end).
Proof. reflexivity. Qed.

(** A value got from an object that is true was there under the key. *)
Lemma truthy_get_present (fields : list (string * pyval)) (q : pyval) :
  py_get (PyDict fields) "query" = Return q ->
  truthy q = true ->
  assoc "query" fields = Some q.
Proof.
  rewrite py_get_query. intros Hget Htruthy.
  destruct (assoc "query" fields) as [v |].
  - inversion Hget. reflexivity.
  - inversion Hget as [Hq]. rewrite <- Hq in Htruthy. discriminate.
Qed.

(** Every request takes one of the four ways through the handler. *)
Lemma handler_branch (request : Request) (p : Process Tool Runtime) :
  branch generate_response request p.
Proof.
  destruct (json request) as [data | e] eqn:Hjson.
  - assert (Hcases : (exists fields, data = PyDict fields)
                     \/ (forall fields, data <> PyDict fields)).
    { destruct data; try (right; intros fields; discriminate).
      left. eexists. reflexivity. }
    destruct Hcases as [[fields ->] | Hnot].
    + pose proof (py_get_query fields) as Hget.
      set (q := match assoc "query" fields with Some v => v | None => PyNone end) in Hget.
      destruct (truthy q) eqn:Htruthy.
      * destruct (generate_response (root_agent (globals p)) q (runtime p))
          as [r rt] eqn:Hcall.
        apply (Call generate_response request p fields q r rt Hjson
                 (truthy_get_present fields q Hget Htruthy) Htruthy Hcall).
        rewrite (handler_invokes request p fields q Hjson Hget Htruthy), Hcall.
        reflexivity.
      * apply (Gate generate_response request p fields q Hjson Hget Htruthy).
        apply (handler_rejects request p fields q Hjson Hget Htruthy).
    + apply (NotAnObject generate_response request p data Hjson Hnot).
      apply (handler_not_an_object request p data Hjson Hnot).
  - apply (NoJson generate_response request p e Hjson).
    apply (handler_no_json request p e Hjson).
Qed.

(** The results of [answer]: the 200 response with the text read from the
    reply, a 500 response, or an exception that does not derive from
    Exception. *)
Lemma answer_cases (r : result pyval) :
  (exists response_data response_text,
      r = Return response_data
      /\ py_getattr response_data "text" = Return response_text
      /\ jsonify (PyDict [("response", response_text); ("status", PyStr "ok")])
         = Return (ok_response response_text)
      /\ answer r = Return (ok_response response_text))
  \/ (exists e,
         isinstance_Exception e = true
         /\ answer r = Return (error_response 500 (str e)))
  \/ (exists e,
         isinstance_Exception e = false
         /\ answer r = Raise e).
Proof.
  assert (Hexc : forall e,
             (exists e',
                 isinstance_Exception e' = true
                 /\ except_Exception e = Return (error_response 500 (str e')))
             \/ (exists e',
                    isinstance_Exception e' = false
                    /\ except_Exception e = Raise e')).
  { intros e. unfold except_Exception.
    destruct (isinstance_Exception e) eqn:He;
      [left | right]; exists e; split; [exact He | reflexivity | exact He | reflexivity]. }
  destruct r as [response_data | e]; cbn [answer].
  - destruct (py_getattr response_data "text") as [response_text | e] eqn:Hattr.
    + destruct (jsonify _) as [response | e] eqn:Henc.
      * left. exists response_data, response_text.
        pose proof (jsonify_Return _ _ Henc) as ->.
        split; [reflexivity |]. split; [exact Hattr |].
        split; [exact Henc |]. reflexivity.
      * right. apply Hexc.
    + right. apply Hexc.
  - right. apply Hexc.
Qed.

(** Every run of the view function ends in one of the ways of
    [handled]. *)
Lemma handler_handled (request : Request) (p : Process Tool Runtime) :
  handled generate_response p
    (fst (agent_handler generate_response request p))
    (snd (agent_handler generate_response request p)).
Proof.
  destruct (handler_branch request p)
    as [e Hjson Heq | data Hjson Hnot Heq | fields q Hjson Hget Hfalsy Heq
        | fields q r rt Hjson Hq Htruthy Hcall Heq];
    rewrite Heq; cbn [fst snd].
  - unfold except_Exception.
    destruct (isinstance_Exception e) eqn:Hexc.
    + apply FailedBeforeCall.
    + apply EscapedBeforeCall. exact Hexc.
  - apply FailedBeforeCall.
  - apply Rejected.
  - destruct (answer_cases r)
      as [(response_data & response_text & -> & Hattr & _ & ->)
          | [(e & _ & ->) | (e & Hexc & ->)]].
    + eapply Answered; eassumption.
    + eapply FailedAfterCall. exact Hcall.
    + eapply EscapedAfterCall; eassumption.
Qed.

(** *** The success path *)

(** C1: a request whose JSON body is an object with a non-empty string
    [query], when the call of the agent runtime returns an object whose
    [text] is the string [text], is answered with status 200 and the body
    [{"response": text, "status": "ok"}]; the runtime was called with the
    query as it came, and the text is returned as it came. *)
Theorem agent_handler_success (request : Request) (p : Process Tool Runtime)
    (fields : list (string * pyval)) (query text : string)
    (response_data : pyval) (rt : Runtime) :
  json request = Return (PyDict fields) ->
  assoc "query" fields = Some (PyStr query) ->
  query <> EmptyString ->
  generate_response (root_agent (globals p)) (PyStr query) (runtime p)
    = (Return response_data, rt) ->
  py_getattr response_data "text" = Return (PyStr text) ->
  agent_handler generate_response request p
  = (Return {| body := Json (PyDict [("response", PyStr text); ("status", PyStr "ok")]);
               status_code := 200;
               mimetype := "application/json" |},
     {| globals := globals p;
        runtime := rt;
        invocations := invocations p ++ [PyStr query] |}).
Proof.
  intros Hjson Hquery Hne Hcall Htext.
  rewrite (handler_invokes request p fields (PyStr query) Hjson).
  - rewrite Hcall. cbn [fst snd answer]. rewrite Htext, jsonify_ok_str.
    reflexivity.
  - unfold py_get. rewrite Hquery. reflexivity.
  - apply truthy_nonempty_str. exact Hne.
Qed.

(** *** The validation path *)

(** C2: a request whose JSON body is an object in which [query] is absent
    or is the empty string is answered with status 400 and the body
    [{"error": "Missing 'query' field in request"}], and the process is left
    exactly as it was: the runtime is not called (its state and the log of
    invocations are unchanged). *)
Theorem agent_handler_missing_query (request : Request) (p : Process Tool Runtime)
    (fields : list (string * pyval)) :
  json request = Return (PyDict fields) ->
  assoc "query" fields = None \/ assoc "query" fields = Some (PyStr EmptyString) ->
  agent_handler generate_response request p
  = (Return {| body := Json (PyDict [("error", PyStr "Missing 'query' field in request")]);
               status_code := 400;
               mimetype := "application/json" |},
     p)
  /\ invocations (snd (agent_handler generate_response request p)) = invocations p.
Proof.
  intros Hjson Hquery.
  assert (Hrun : agent_handler generate_response request p
                 = (Return (error_response 400 "Missing 'query' field in request"), p)).
  { destruct Hquery as [Habsent | Hempty].
    - apply (handler_rejects request p fields PyNone Hjson).
      + unfold py_get. rewrite Habsent. reflexivity.
      + reflexivity.
    - apply (handler_rejects request p fields (PyStr EmptyString) Hjson).
      + unfold py_get. rewrite Hempty. reflexivity.
      + reflexivity. }
  rewrite Hrun. split; reflexivity.
Qed.

(** C9: the gate is Python's truth test.  None, False, 0, 0.0, the empty
    string, the empty list and the empty object are all false; and a request
    whose JSON body is an object mapping [query] to any false value is
    answered with status 400 and the body
    [{"error": "Missing 'query' field in request"}], with the process left
    as it was: the runtime is not called. *)
Theorem agent_handler_falsy_query :
  Forall (fun v => truthy v = false)
    [PyNone; PyBool false; PyInt 0; PyFloat (S754_zero false);
     PyFloat (S754_zero true); PyStr EmptyString; PyList []; PyDict []]
  /\ forall (request : Request) (p : Process Tool Runtime)
       (fields : list (string * pyval)) (v : pyval),
       json request = Return (PyDict fields) ->
       assoc "query" fields = Some v ->
       truthy v = false ->
       agent_handler generate_response request p
       = (Return {| body := Json (PyDict [("error", PyStr "Missing 'query' field in request")]);
                    status_code := 400;
                    mimetype := "application/json" |},
          p)
       /\ invocations (snd (agent_handler generate_response request p))
          = invocations p.
Proof.
  split.
  - repeat constructor.
  - intros request p fields v Hjson Hquery Hfalsy.
    assert (Hrun : agent_handler generate_response request p
                   = (Return (error_response 400 "Missing 'query' field in request"), p)).
    { apply (handler_rejects request p fields v Hjson).
      - unfold py_get. rewrite Hquery. reflexivity.
      - exact Hfalsy. }
    rewrite Hrun. split; reflexivity.
Qed.

(** *** The failure path *)

(** C8: a request without a JSON object for a body takes the catch-all
    path, not the validation path.  If [request.json] raises (no body, a
    content type that is not JSON, text that does not decode: the
    framework's errors derive from Exception) the answer is status 500 with
    the string of that exception; if the body decodes to null, or to any
    other value that is not an object, the answer is status 500 with the
    string of the AttributeError of [data.get].  Neither is the 400
    response, and the runtime is not called. *)
Theorem agent_handler_unparseable_body (request : Request)
    (p : Process Tool Runtime) :
  (forall e : pyexc,
      json request = Raise e ->
      isinstance_Exception e = true ->
      agent_handler generate_response request p
      = (Return {| body := Json (PyDict [("error", PyStr (str e))]);
                   status_code := 500;
                   mimetype := "application/json" |}, p))
  /\ (json request = Return PyNone ->
      agent_handler generate_response request p
      = (Return {| body := Json (PyDict
                     [("error", PyStr "'NoneType' object has no attribute 'get'")]);
                   status_code := 500;
                   mimetype := "application/json" |}, p))
  /\ (forall data : pyval,
      json request = Return data ->
      (forall fields, data <> PyDict fields) ->
      agent_handler generate_response request p
      = (Return {| body := Json (PyDict
                     [("error", PyStr ("'" +:+ type_name data
                                       +:+ "' object has no attribute 'get'"))]);
                   status_code := 500;
                   mimetype := "application/json" |}, p)).
Proof.
  split; [| split].
  - intros e Hjson Hexc.
    rewrite (handler_no_json request p e Hjson).
    unfold except_Exception. rewrite Hexc. reflexivity.
  - intros Hjson.
    rewrite (handler_not_an_object request p PyNone Hjson); [reflexivity |].
    intros fields. discriminate.
  - intros data Hjson Hnot.
    rewrite (handler_not_an_object request p data Hjson Hnot). reflexivity.
Qed.

(** C3, as the code has it: the handler catches what derives from
    Exception, and only that.  Whichever step raises the exception [e]
    (reading the body, [data.get], the call of the runtime, reading [text],
    encoding the answer): if the class of [e] derives from Exception, the
    view function returns status 500 with the body [{"error": str(e)}]
    ([str(e)] returning, as it does for every exception of this model); if
    it does not, the view function raises [e] itself and builds no
    response.  So no exception deriving from Exception leaves the view
    function.  A request that fails in this way costs only its own
    response: the module globals are as they were, and the process goes on
    to serve the requests that follow. *)
Theorem agent_handler_catches_Exception (request : Request)
    (p : Process Tool Runtime) :
  (forall e,
      (json request = Raise e
       \/ exists data,
           json request = Return data /\ py_get data "query" = Raise e) ->
      (isinstance_Exception e = true ->
       agent_handler generate_response request p
       = (Return (error_response 500 (str e)), p))
      /\ (isinstance_Exception e = false ->
          agent_handler generate_response request p = (Raise e, p)))
  /\ (forall data user_query r rt e,
      json request = Return data ->
      py_get data "query" = Return user_query ->
      truthy user_query = true ->
      generate_response (root_agent (globals p)) user_query (runtime p)
        = (r, rt) ->
      (r = Raise e
       \/ (exists response_data,
              r = Return response_data
              /\ py_getattr response_data "text" = Raise e)
       \/ (exists response_data response_text,
              r = Return response_data
              /\ py_getattr response_data "text" = Return response_text
              /\ jsonify (PyDict [("response", response_text);
                                  ("status", PyStr "ok")]) = Raise e)) ->
      (isinstance_Exception e = true ->
       agent_handler generate_response request p
       = (Return (error_response 500 (str e)), after_call p user_query rt))
      /\ (isinstance_Exception e = false ->
          agent_handler generate_response request p
          = (Raise e, after_call p user_query rt)))
  /\ (forall e p',
      agent_handler generate_response request p = (Raise e, p') ->
      isinstance_Exception e = false)
  /\ globals (snd (agent_handler generate_response request p)) = globals p
  /\ (forall (r : Response) (p' : Process Tool Runtime) (rest : list http_request),
      agent_handler generate_response request p = (Return r, p') ->
      serve generate_response (POST_agent request :: rest) p
      = (Return r :: fst (serve generate_response rest p'),
         snd (serve generate_response rest p'))).
Proof.
  repeat apply conj.
  - intros e [Hjson | (data & Hjson & Hget)].
    + rewrite (handler_no_json request p e Hjson). unfold except_Exception.
      split; intros ->; reflexivity.
    + assert (Hnot : forall fields, data <> PyDict fields).
      { intros fields ->. discriminate Hget. }
      rewrite (handler_not_an_object request p data Hjson Hnot).
      assert (He : e = no_attribute data "get").
      { destruct data; inversion Hget; try reflexivity. }
      subst e. split; [reflexivity | discriminate].
  - intros data user_query r rt e Hjson Hget Htruthy Hcall Hstep.
    destruct data; try discriminate Hget.
    rewrite (handler_invokes request p entries user_query Hjson Hget Htruthy).
    rewrite Hcall. cbn [fst snd].
    assert (Hanswer : answer r = except_Exception e).
    { destruct Hstep as [-> | [(response_data & -> & Hattr)
                               | (response_data & response_text & -> & Hattr & Henc)]];
        cbn [answer].
      - reflexivity.
      - rewrite Hattr. reflexivity.
      - rewrite Hattr, Henc. reflexivity. }
    rewrite Hanswer. unfold except_Exception.
    split; intros ->; reflexivity.
  - intros e p' Hrun.
    pose proof (handler_handled request p) as Hh.
    rewrite Hrun in Hh. cbn [fst snd] in Hh.
    inversion Hh; assumption.
  - pose proof (handler_handled request p) as Hh.
    destruct (agent_handler generate_response request p) as [out p'].
    cbn [fst snd] in *.
    inversion Hh; subst; reflexivity.
  - intros r p' rest Hrun. cbn [serve dispatch_request]. rewrite Hrun.
    destruct (serve generate_response rest p') as [outs p''].
    reflexivity.
Qed.

(** *** The shape of every response *)

(** C10: every response the [POST /agent] view function returns has status
    200, 400 or 500 and a JSON object for a body: with status 200 the
    object has exactly the keys [response] and [status], and [status] is
    the string [ok]; with status 400 or 500 it has the single key [error],
    mapped to a string. *)
Theorem agent_handler_response_schema (request : Request)
    (p p' : Process Tool Runtime) (r : Response) :
  agent_handler generate_response request p = (Return r, p') ->
  well_formed r = true
  /\ ((status_code r = 200
       /\ exists text,
           body r = Json (PyDict [("response", text); ("status", PyStr "ok")]))
      \/ ((status_code r = 400 \/ status_code r = 500)
          /\ exists message,
              body r = Json (PyDict [("error", PyStr message)]))).
Proof.
  intros Hrun.
  pose proof (handler_handled request p) as Hh.
  rewrite Hrun in Hh. cbn [fst snd] in Hh.
  inversion Hh; subst; (split; [reflexivity |]).
  - right. split; [left; reflexivity | eexists; reflexivity].
  - right. split; [right; reflexivity | eexists; reflexivity].
  - left. split; [reflexivity | eexists; reflexivity].
  - right. split; [right; reflexivity | eexists; reflexivity].
Qed.

(** *** One call at most *)

(** C7: handling one request calls the runtime at most once.  The process
    is left either as it was, or as one call of the runtime leaves it (the
    log one entry longer), whether that call returned or raised: nothing
    is tried again.  The result is all or nothing: the 200 response built
    from the text of a call that returned, or an error response that
    carries only the error, or an escaping exception that does not derive
    from Exception. *)
Theorem agent_handler_single_invocation (request : Request)
    (p : Process Tool Runtime) :
  let run := agent_handler generate_response request p in
  (snd run = p
   \/ exists query r rt,
       generate_response (root_agent (globals p)) query (runtime p) = (r, rt)
       /\ snd run = after_call p query rt)
  /\ (length (invocations (snd run)) <= length (invocations p) + 1)%nat
  /\ match fst run with
     | Return r =>
         (exists query response_data text rt,
             generate_response (root_agent (globals p)) query (runtime p)
               = (Return response_data, rt)
             /\ py_getattr response_data "text" = Return text
             /\ snd run = after_call p query rt
             /\ r = ok_response text)
         \/ (exists status message,
                (status = 400 \/ status = 500)
                /\ r = error_response status message)
     | Raise e => isinstance_Exception e = false
     end.
Proof.
  cbv zeta.
  pose proof (handler_handled request p) as Hh.
  destruct (agent_handler generate_response request p) as [out p'].
  cbn [fst snd] in *.
  inversion Hh; subst; repeat apply conj;
    try (left; reflexivity);
    try (right; do 3 eexists; split; [eassumption | reflexivity]);
    try (cbn [after_call invocations]; rewrite ?length_app; cbn [length]; lia);
    try assumption.
  - right. exists 400, "Missing 'query' field in request". auto.
  - right. exists 500, message. auto.
  - left. do 4 eexists. repeat split; eassumption.
  - right. exists 500, message. auto.
Qed.

(** *** The page *)

(** C4: [GET /] is answered, whatever the state of the process and without
    changing it, with status 200, content type HTML and one fixed page,
    which contains the text [Dixie Agent].  The page source has no template
    syntax, so rendering it takes no parameter and cannot fail. *)
Theorem serve_ui_fixed_page :
  has_template_syntax CHAT_UI_HTML = false
  /\ exists page : string,
      (exists before after, page = before +:+ "Dixie Agent" +:+ after)
      /\ forall p : Process Tool Runtime,
          serve_ui p
          = (Return {| body := Html page;
                       status_code := 200;
                       mimetype := "text/html" |}, p).
Proof.
  split; [exact CHAT_UI_HTML_is_literal |].
  exists (render_template_string CHAT_UI_HTML). split.
  - apply str_in_sound. exact page_has_title.
  - intros p. reflexivity.
Qed.

(** *** The globals stay put *)

Lemma dispatch_request_globals (rq : http_request) (p : Process Tool Runtime) :
  globals (snd (dispatch_request generate_response rq p)) = globals p.
Proof.
  destruct rq as [| request]; cbn [dispatch_request].
  - reflexivity.
  - pose proof (handler_handled request p) as Hh.
    destruct (agent_handler generate_response request p) as [out p'].
    cbn [fst snd] in *.
    inversion Hh; subst; reflexivity.
Qed.

Lemma serve_globals (rqs : list http_request) (p : Process Tool Runtime) :
  globals (snd (serve generate_response rqs p)) = globals p.
Proof.
  revert p. induction rqs as [| rq rqs IH]; intros p; cbn [serve].
  - reflexivity.
  - pose proof (dispatch_request_globals rq p) as Hstep.
    destruct (dispatch_request generate_response rq p) as [out p'].
    specialize (IH p').
    destruct (serve generate_response rqs p') as [outs p''].
    cbn [fst snd] in *. congruence.
Qed.

(** What a request with a true [query] is answered, from what its own call
    of the runtime came to. *)
Lemma handler_of_call (request : Request) (p : Process Tool Runtime)
    (fields : list (string * pyval)) (query : string)
    (r : result pyval) (rt : Runtime) :
  json request = Return (PyDict fields) ->
  assoc "query" fields = Some (PyStr query) ->
  query <> EmptyString ->
  generate_response (root_agent (globals p)) (PyStr query) (runtime p) = (r, rt) ->
  agent_handler generate_response request p
  = (answer r, after_call p (PyStr query) rt).
Proof.
  intros Hjson Hquery Hne Hcall.
  rewrite (handler_invokes request p fields (PyStr query) Hjson).
  - rewrite Hcall. reflexivity.
  - unfold py_get. rewrite Hquery. reflexivity.
  - apply truthy_nonempty_str. exact Hne.
Qed.

End FacadeProperties.

(** ** The configuration *)

Section ConfigurationProperties.

Context {Tool : Type}.
Variable query_bigquery : Tool.
Variable BIGQUERY_PROMPT : string.
Context `{JSONProvider}.

(** C5: the model identifier is the one setting read from the environment.
    Where the environment, as the module sees it after [load_dotenv], has
    ROOT_AGENT_MODEL, its value is the model (a value in the environment of
    the process itself always is that value); where it has not, the model
    is the default, gemini-2.5-flash.  The agent is built with that model,
    the fixed name, the fixed instruction and a list of exactly one tool.
    Nothing else in the environment matters to the configuration, and no
    sequence of requests changes it. *)
Theorem root_agent_configuration (dotenv environ : gmap string string) :
  let g := startup query_bigquery BIGQUERY_PROMPT dotenv environ in
  (forall value : string,
      load_dotenv dotenv environ !! "ROOT_AGENT_MODEL" = Some value ->
      ROOT_AGENT_MODEL g = value)
  /\ (forall value : string,
      environ !! "ROOT_AGENT_MODEL" = Some value ->
      ROOT_AGENT_MODEL g = value)
  /\ (load_dotenv dotenv environ !! "ROOT_AGENT_MODEL" = None ->
      ROOT_AGENT_MODEL g = "gemini-2.5-flash")
  /\ model (root_agent g) = ROOT_AGENT_MODEL g
  /\ name (root_agent g) = "bigquery_agent"
  /\ instruction (root_agent g) = BIGQUERY_PROMPT
  /\ tools (root_agent g) = [query_bigquery]
  /\ (forall dotenv' environ' : gmap string string,
      load_dotenv dotenv' environ' !! "ROOT_AGENT_MODEL"
        = load_dotenv dotenv environ !! "ROOT_AGENT_MODEL" ->
      startup query_bigquery BIGQUERY_PROMPT dotenv' environ' = g)
  /\ (forall (Runtime : Type)
        (generate_response : Agent Tool -> pyval -> Runtime -> result pyval * Runtime)
        (rt : Runtime) (rqs : list http_request),
      globals (snd (serve generate_response rqs
                      (boot query_bigquery BIGQUERY_PROMPT dotenv environ rt)))
      = g).
Proof.
  cbv zeta. repeat apply conj.
  - intros value Hset. cbn. unfold environ_get. rewrite Hset. reflexivity.
  - intros value Hset. cbn. unfold environ_get, load_dotenv.
    rewrite (lookup_union_Some_l environ dotenv _ value Hset). reflexivity.
  - intros Hunset. cbn. unfold environ_get. rewrite Hunset. reflexivity.
  - reflexivity.
  - reflexivity.
  - reflexivity.
  - reflexivity.
  - intros dotenv' environ' Hsame. unfold startup, environ_get.
    rewrite Hsame. reflexivity.
  - intros Runtime generate_response rt rqs.
    rewrite serve_globals. reflexivity.
Qed.

End ConfigurationProperties.

(** ** The same query, twice *)

Section SameQueryTwice.

Context `{JSONProvider}.

(** C6: two requests with the same non-empty string [query] make two calls
    of the runtime, the second from the state the first left: nothing is
    cached and the process keeps nothing else between them.  What each
    request is answered is one fixed function of what its own call came to;
    every response returned is well-formed (where nothing is returned, an
    exception that does not derive from Exception went through); and the two
    responses can differ, as they do for a runtime that numbers its
    answers. *)
Theorem same_query_twice :
  (exists respond : result pyval -> result Response,
      forall (Tool Runtime : Type)
        (generate_response : Agent Tool -> pyval -> Runtime -> result pyval * Runtime)
        (p : Process Tool Runtime) (request1 request2 : Request)
        (fields1 fields2 : list (string * pyval)) (query : string)
        (r1 r2 : result pyval) (rt1 rt2 : Runtime),
        json request1 = Return (PyDict fields1) ->
        json request2 = Return (PyDict fields2) ->
        assoc "query" fields1 = Some (PyStr query) ->
        assoc "query" fields2 = Some (PyStr query) ->
        query <> EmptyString ->
        generate_response (root_agent (globals p)) (PyStr query) (runtime p)
          = (r1, rt1) ->
        generate_response (root_agent (globals p)) (PyStr query) rt1
          = (r2, rt2) ->
        serve generate_response [POST_agent request1; POST_agent request2] p
        = ([respond r1; respond r2],
           {| globals := globals p;
              runtime := rt2;
              invocations := invocations p ++ [PyStr query; PyStr query] |})
        /\ Forall (fun out =>
                     match out with
                     | Return r => well_formed r = true
                     | Raise e => isinstance_Exception e = false
                     end) [respond r1; respond r2])
  /\ serve numbering_runtime
       [POST_agent open_roles_request; POST_agent open_roles_request]
       sample_process
     = ([Return (ok_response (PyStr "first answer"));
         Return (ok_response (PyStr "later answer"))],
        {| globals := globals sample_process;
           runtime := 2%nat;
           invocations := [PyStr open_roles_query; PyStr open_roles_query] |})
  /\ ok_response (PyStr "first answer") <> ok_response (PyStr "later answer").
Proof.
  split; [| split].
  - exists answer.
    intros Tool Runtime generate_response p request1 request2 fields1 fields2
      query r1 r2 rt1 rt2 Hjson1 Hjson2 Hq1 Hq2 Hne Hcall1 Hcall2.
    split.
    + cbn [serve dispatch_request].
      rewrite (handler_of_call generate_response request1 p fields1 query r1 rt1
                 Hjson1 Hq1 Hne Hcall1).
      rewrite (handler_of_call generate_response request2
                 (after_call p (PyStr query) rt1) fields2 query r2 rt2
                 Hjson2 Hq2 Hne Hcall2).
      unfold after_call. cbn [globals runtime invocations].
      rewrite <- app_assoc. reflexivity.
    + assert (Hshape : forall r,
                 match answer r with
                 | Return resp => well_formed resp = true
                 | Raise e => isinstance_Exception e = false
                 end).
      { intros r.
        destruct (answer_cases r)
          as [(response_data & response_text & _ & _ & _ & ->)
              | [(e & _ & ->) | (e & Hexc & ->)]].
        - reflexivity.
        - reflexivity.
        - exact Hexc. }
      repeat constructor; apply Hshape.
  - vm_compute. reflexivity.
  - intros Heq. discriminate Heq.
Qed.

End SameQueryTwice.

(** * Further properties of the handler *)

Section HandlerCases.

Context {Tool : Type} {Runtime : Type}.
Variable generate_response :
  Agent Tool -> pyval -> Runtime -> result pyval * Runtime.
Context `{JSONProvider}.

(** X1: the handler answers 400 exactly when the body is a JSON object in
    which [query] is absent or is false in Python's sense. *)
Theorem agent_handler_400_iff (request : Request) (p : Process Tool Runtime) :
  (exists r p',
      agent_handler generate_response request p = (Return r, p')
      /\ status_code r = 400)
  <-> (exists fields,
          json request = Return (PyDict fields)
          /\ (assoc "query" fields = None
              \/ exists v, assoc "query" fields = Some v /\ truthy v = false)).
Proof.
  split.
  - intros (r & p' & Hrun & Hstatus).
    destruct (handler_branch generate_response request p)
      as [e Hjson Heq | data Hjson Hnot Heq | fields q Hjson Hget Hfalsy Heq
          | fields q res rt Hjson Hq Htruthy Hcall Heq];
      rewrite Heq in Hrun.
    + unfold except_Exception in Hrun.
      destruct (isinstance_Exception e); inversion Hrun; subst r.
      cbn in Hstatus. discriminate.
    + inversion Hrun; subst r. cbn in Hstatus. discriminate.
    + exists fields. split; [exact Hjson |].
      rewrite py_get_query in Hget.
      destruct (assoc "query" fields) as [v |]; [| left; reflexivity].
      right. exists v. split; [reflexivity |].
      inversion Hget. exact Hfalsy.
    + destruct (answer_cases res)
        as [(response_data & response_text & _ & _ & _ & Hans)
            | [(e & _ & Hans) | (e & _ & Hans)]];
        rewrite Hans in Hrun; inversion Hrun; subst r;
        cbn in Hstatus; discriminate.
  - intros (fields & Hjson & Hquery).
    exists (error_response 400 "Missing 'query' field in request"), p.
    split; [| reflexivity].
    destruct Hquery as [Habsent | (v & Hsome & Hfalsy)].
    + apply (handler_rejects generate_response request p fields PyNone Hjson).
      * rewrite py_get_query, Habsent. reflexivity.
      * reflexivity.
    + apply (handler_rejects generate_response request p fields v Hjson).
      * rewrite py_get_query, Hsome. reflexivity.
      * exact Hfalsy.
Qed.

(** X2: a 200 response is only ever the answer of the runtime.  If the
    handler returns status 200, the body was an object with a true [query],
    the runtime was called once with that very value and returned an object,
    reading its [text] gave a value that the JSON provider wrote, and the
    response is the 200 response [jsonify] made of
    [{"response": text, "status": "ok"}]. *)
Theorem agent_handler_200_only_if (request : Request)
    (p p' : Process Tool Runtime) (r : Response) :
  agent_handler generate_response request p = (Return r, p') ->
  status_code r = 200 ->
  exists fields q response_data text rt,
    json request = Return (PyDict fields)
    /\ assoc "query" fields = Some q
    /\ truthy q = true
    /\ generate_response (root_agent (globals p)) q (runtime p)
       = (Return response_data, rt)
    /\ py_getattr response_data "text" = Return text
    /\ jsonify (PyDict [("response", text); ("status", PyStr "ok")]) = Return r
    /\ p' = after_call p q rt.
Proof.
  intros Hrun Hstatus.
  destruct (handler_branch generate_response request p)
    as [e Hjson Heq | data Hjson Hnot Heq | fields q Hjson Hget Hfalsy Heq
        | fields q res rt Hjson Hq Htruthy Hcall Heq];
    rewrite Heq in Hrun.
  - unfold except_Exception in Hrun.
    destruct (isinstance_Exception e); inversion Hrun; subst r.
    cbn in Hstatus. discriminate.
  - inversion Hrun; subst r. cbn in Hstatus. discriminate.
  - inversion Hrun; subst r. cbn in Hstatus. discriminate.
  - destruct (answer_cases res)
      as [(response_data & response_text & -> & Hattr & Henc & Hans)
          | [(e & _ & Hans) | (e & _ & Hans)]];
      rewrite Hans in Hrun; inversion Hrun; subst r p';
      try (cbn in Hstatus; discriminate).
    exists fields, q, response_data, response_text, rt.
    split; [exact Hjson |]. split; [exact Hq |]. split; [exact Htruthy |].
    split; [exact Hcall |]. split; [exact Hattr |]. split; [exact Henc |].
    reflexivity.
Qed.

(** X3: the handler does not check that [query] is a string.  Whatever true
    value the body has under [query] (a number, a list, an object), the
    runtime is called with that value as it is, once. *)
Theorem agent_handler_forwards_any_true_value (request : Request)
    (p : Process Tool Runtime) (fields : list (string * pyval)) (v : pyval) :
  json request = Return (PyDict fields) ->
  assoc "query" fields = Some v ->
  truthy v = true ->
  snd (agent_handler generate_response request p)
  = after_call p v
      (snd (generate_response (root_agent (globals p)) v (runtime p))).
Proof.
  intros Hjson Hsome Htruthy.
  rewrite (handler_invokes generate_response request p fields v Hjson).
  - reflexivity.
  - rewrite py_get_query, Hsome. reflexivity.
  - exact Htruthy.
Qed.

(** X4: where a 500 response comes from.  It always reports an exception
    deriving from Exception, by its string.  Either the runtime was not
    called and that exception came from reading the body ([request.json]
    raised it, or the decoded value has no [get]); or the runtime was
    called once, with a true [query], and the exception came from that
    call, from reading [text] of what it returned, or from the JSON
    provider encoding the answer.  In the latter cases the call has
    happened and is not undone. *)
Theorem agent_handler_500_only_if (request : Request)
    (p p' : Process Tool Runtime) (r : Response) :
  agent_handler generate_response request p = (Return r, p') ->
  status_code r = 500 ->
  exists e,
    isinstance_Exception e = true
    /\ r = error_response 500 (str e)
    /\ ((p' = p
         /\ (json request = Raise e
             \/ exists data,
                 json request = Return data
                 /\ (forall fields, data <> PyDict fields)
                 /\ py_get data "query" = Raise e))
        \/ (exists fields q res rt,
               json request = Return (PyDict fields)
               /\ assoc "query" fields = Some q
               /\ truthy q = true
               /\ generate_response (root_agent (globals p)) q (runtime p)
                  = (res, rt)
               /\ p' = after_call p q rt
               /\ (res = Raise e
                   \/ (exists response_data,
                          res = Return response_data
                          /\ py_getattr response_data "text" = Raise e)
                   \/ (exists response_data text,
                          res = Return response_data
                          /\ py_getattr response_data "text" = Return text
                          /\ jsonify (PyDict [("response", text);
                                              ("status", PyStr "ok")])
                             = Raise e)))).
Proof.
  intros Hrun Hstatus.
  destruct (handler_branch generate_response request p)
    as [e Hjson Heq | data Hjson Hnot Heq | fields q Hjson Hget Hfalsy Heq
        | fields q res rt Hjson Hq Htruthy Hcall Heq];
    rewrite Heq in Hrun.
  - unfold except_Exception in Hrun.
    destruct (isinstance_Exception e) eqn:Hexc; inversion Hrun; subst r p'.
    exists e. split; [exact Hexc |]. split; [reflexivity |].
    left. split; [reflexivity |]. left. exact Hjson.
  - inversion Hrun; subst r p'.
    exists (no_attribute data "get").
    split; [reflexivity |]. split; [reflexivity |].
    left. split; [reflexivity |]. right. exists data.
    split; [exact Hjson |]. split; [exact Hnot |].
    destruct data; try reflexivity.
    exfalso. eapply Hnot. reflexivity.
  - inversion Hrun; subst r. cbn in Hstatus. discriminate.
  - assert (Hcaught : forall e0,
               except_Exception e0 = Return r ->
               isinstance_Exception e0 = true /\ r = error_response 500 (str e0)).
    { intros e0. unfold except_Exception.
      destruct (isinstance_Exception e0); intros Heq0; inversion Heq0.
      split; reflexivity. }
    assert (Hp : p' = after_call p q rt) by (inversion Hrun; reflexivity).
    assert (Hans : answer res = Return r) by (inversion Hrun; reflexivity).
    destruct res as [response_data | e]; cbn [answer] in Hans.
    + destruct (py_getattr response_data "text") as [text | e] eqn:Hattr.
      * destruct (jsonify (PyDict [("response", text); ("status", PyStr "ok")]))
          as [response | e] eqn:Henc.
        -- inversion Hans; subst r.
           rewrite (jsonify_Return _ _ Henc) in Hstatus.
           cbn in Hstatus. discriminate.
        -- destruct (Hcaught e Hans) as [Hexc ->].
           exists e. split; [exact Hexc |]. split; [reflexivity |].
           right. exists fields, q, (Return response_data), rt.
           do 5 (split; [first [assumption | reflexivity] |]).
           right. right. exists response_data, text. auto.
      * destruct (Hcaught e Hans) as [Hexc ->].
        exists e. split; [exact Hexc |]. split; [reflexivity |].
        right. exists fields, q, (Return response_data), rt.
        do 5 (split; [first [assumption | reflexivity] |]).
        right. left. exists response_data. auto.
    + destruct (Hcaught e Hans) as [Hexc ->].
      exists e. split; [exact Hexc |]. split; [reflexivity |].
      right. exists fields, q, (Raise e), rt.
      do 5 (split; [first [assumption | reflexivity] |]).
      left. reflexivity.
Qed.

(** X6: only [query] is read from the body.  Two object bodies for which
    [data.get('query')] gives the same value (whatever other fields they
    have, and a [query] that is null being the same as none) get the same
    result and leave the process in the same state. *)
Theorem agent_handler_reads_only_query (request1 request2 : Request)
    (p : Process Tool Runtime) (fields1 fields2 : list (string * pyval)) :
  json request1 = Return (PyDict fields1) ->
  json request2 = Return (PyDict fields2) ->
  py_get (PyDict fields1) "query" = py_get (PyDict fields2) "query" ->
  agent_handler generate_response request1 p
  = agent_handler generate_response request2 p.
Proof.
  intros Hjson1 Hjson2 Hsame.
  pose proof (py_get_query fields1) as Hget1.
  set (q := match assoc "query" fields1 with Some v => v | None => PyNone end) in Hget1.
  assert (Hget2 : py_get (PyDict fields2) "query" = Return q)
    by (rewrite <- Hsame; exact Hget1).
  destruct (truthy q) eqn:Htruthy.
  - rewrite (handler_invokes generate_response request1 p fields1 q
               Hjson1 Hget1 Htruthy).
    rewrite (handler_invokes generate_response request2 p fields2 q
               Hjson2 Hget2 Htruthy).
    reflexivity.
  - rewrite (handler_rejects generate_response request1 p fields1 q
               Hjson1 Hget1 Htruthy).
    rewrite (handler_rejects generate_response request2 p fields2 q
               Hjson2 Hget2 Htruthy).
    reflexivity.
Qed.

(** X7: every response of the handler, the error responses included, is of
    type application/json. *)
Theorem agent_handler_mimetype (request : Request)
    (p p' : Process Tool Runtime) (r : Response) :
  agent_handler generate_response request p = (Return r, p') ->
  mimetype r = "application/json".
Proof.
  intros Hrun.
  pose proof (handler_handled generate_response request p) as Hh.
  rewrite Hrun in Hh. cbn [fst snd] in Hh.
  inversion Hh; subst; reflexivity.
Qed.

End HandlerCases.

(** * Sequences of requests *)

Section ServeProperties.

Context {Tool : Type} {Runtime : Type}.
Variable generate_response :
  Agent Tool -> pyval -> Runtime -> result pyval * Runtime.
Context `{JSONProvider}.

Lemma serve_cons (rq : http_request) (rest : list http_request)
    (p : Process Tool Runtime) :
  serve generate_response (rq :: rest) p
  = (fst (dispatch_request generate_response rq p)
       :: fst (serve generate_response rest
                 (snd (dispatch_request generate_response rq p))),
     snd (serve generate_response rest
            (snd (dispatch_request generate_response rq p)))).
Proof.
  cbn [serve].
  destruct (dispatch_request generate_response rq p) as [out p'].
  cbn [fst snd].
  destruct (serve generate_response rest p') as [outs p''].
  reflexivity.
Qed.

(** The process after one request: as before, or one call further. *)
Lemma dispatch_request_state (rq : http_request) (p : Process Tool Runtime) :
  snd (dispatch_request generate_response rq p)
  = match forwarded_query rq with
    | None => p
    | Some q =>
        after_call p q
          (snd (generate_response (root_agent (globals p)) q (runtime p)))
    end.
Proof.
  destruct rq as [| request]; [reflexivity |].
  cbn [dispatch_request forwarded_query].
  destruct (handler_branch generate_response request p)
    as [e Hjson Heq | data Hjson Hnot Heq | fields q Hjson Hget Hfalsy Heq
        | fields q res rt Hjson Hq Htruthy Hcall Heq];
    rewrite Heq, Hjson.
  - reflexivity.
  - destruct data; try reflexivity.
    exfalso. eapply Hnot. reflexivity.
  - rewrite py_get_query in Hget.
    destruct (assoc "query" fields) as [v |]; [| reflexivity].
    inversion Hget; subst v. rewrite Hfalsy. reflexivity.
  - rewrite Hq, Htruthy, Hcall. reflexivity.
Qed.

(** X8: what a sequence of requests does to the process.  The runtime is
    called once for each [POST /agent] whose body is an object with a true
    [query], with that value, in the order of the requests, each call from
    the state the one before left, whether or not earlier requests failed;
    no other request calls it, and the module globals stay as they were. *)
Theorem serve_final_state (rqs : list http_request) (p : Process Tool Runtime) :
  snd (serve generate_response rqs p)
  = {| globals := globals p;
       runtime := after_calls generate_response (root_agent (globals p))
                    (omap forwarded_query rqs) (runtime p);
       invocations := invocations p ++ omap forwarded_query rqs |}.
Proof.
  revert p. induction rqs as [| rq rest IH]; intros p.
  - cbn. rewrite app_nil_r. destruct p; reflexivity.
  - rewrite serve_cons. cbn [snd]. rewrite IH, dispatch_request_state.
    cbn [omap list_omap].
    destruct (forwarded_query rq) as [q |].
    + cbn [after_call globals runtime invocations].
      unfold after_calls. cbn [fold_left].
      rewrite <- app_assoc. reflexivity.
    + reflexivity.
Qed.

End ServeProperties.

(** * The model identifier, case by case *)

Section ConfigurationPrecedence.

Context {Tool : Type}.
Variable query_bigquery : Tool.
Variable BIGQUERY_PROMPT : string.

(** X10: where the model identifier comes from.  A value in the environment
    of the process wins, even the empty string; failing that, the value of
    the [.env] file; failing both, the default gemini-2.5-flash.  The agent's
    model is the default only in that last case or when the value found is
    the default itself. *)
Theorem ROOT_AGENT_MODEL_precedence (dotenv environ : gmap string string) :
  let g := startup query_bigquery BIGQUERY_PROMPT dotenv environ in
  (forall value : string,
      environ !! "ROOT_AGENT_MODEL" = Some value ->
      model (root_agent g) = value)
  /\ (forall value : string,
      environ !! "ROOT_AGENT_MODEL" = None ->
      dotenv !! "ROOT_AGENT_MODEL" = Some value ->
      model (root_agent g) = value)
  /\ (environ !! "ROOT_AGENT_MODEL" = None ->
      dotenv !! "ROOT_AGENT_MODEL" = None ->
      model (root_agent g) = "gemini-2.5-flash")
  /\ (model (root_agent g) <> "gemini-2.5-flash" ->
      environ !! "ROOT_AGENT_MODEL" = Some (model (root_agent g))
      \/ (environ !! "ROOT_AGENT_MODEL" = None
          /\ dotenv !! "ROOT_AGENT_MODEL" = Some (model (root_agent g)))).
Proof.
  cbv zeta. cbn [startup root_agent model]. unfold environ_get, load_dotenv.
  repeat apply conj.
  - intros value Hset.
    rewrite (lookup_union_Some_l environ dotenv _ value Hset). reflexivity.
  - intros value Hunset Hfile.
    rewrite (lookup_union_r environ dotenv _ Hunset), Hfile. reflexivity.
  - intros Hunset Hnofile.
    rewrite (lookup_union_r environ dotenv _ Hunset), Hnofile. reflexivity.
  - intros Hmodel.
    destruct (environ !! "ROOT_AGENT_MODEL") as [value |] eqn:Henv.
    + left. rewrite (lookup_union_Some_l environ dotenv _ value Henv).
      reflexivity.
    + right. split; [reflexivity |].
      rewrite (lookup_union_r environ dotenv _ Henv) in Hmodel |- *.
      destruct (dotenv !! "ROOT_AGENT_MODEL") as [value |].
      * reflexivity.
      * exfalso. apply Hmodel. reflexivity.
Qed.

End ConfigurationPrecedence.

(** * The theorems at work on sample requests *)

(** The samples run with the provider that has no encoding for class
    instances. *)
#[local] Existing Instance plain_provider.

Lemma agent_handler_success_witness :
  json open_roles_request = Return (PyDict [("query", PyStr open_roles_query)])
  /\ assoc "query" [("query", PyStr open_roles_query)] = Some (PyStr open_roles_query)
  /\ open_roles_query <> EmptyString
  /\ numbering_runtime (root_agent (globals sample_process))
       (PyStr open_roles_query) (runtime sample_process)
     = (Return (PyObject "Reply" [("text", Return (PyStr "first answer"))]), 1%nat)
  /\ py_getattr (PyObject "Reply" [("text", Return (PyStr "first answer"))]) "text"
     = Return (PyStr "first answer")
  /\ agent_handler numbering_runtime open_roles_request sample_process
     = (Return {| body := Json (PyDict [("response", PyStr "first answer");
                                        ("status", PyStr "ok")]);
                  status_code := 200;
                  mimetype := "application/json" |},
        {| globals := globals sample_process;
           runtime := 1%nat;
           invocations := invocations sample_process ++ [PyStr open_roles_query] |}).
Proof.
  assert (H1 : json open_roles_request
               = Return (PyDict [("query", PyStr open_roles_query)]))
    by reflexivity.
  assert (H2 : assoc "query" [("query", PyStr open_roles_query)]
               = Some (PyStr open_roles_query)) by reflexivity.
  assert (H3 : open_roles_query <> EmptyString) by (vm_compute; discriminate).
  assert (H4 : numbering_runtime (root_agent (globals sample_process))
                 (PyStr open_roles_query) (runtime sample_process)
               = (Return (PyObject "Reply"
                            [("text", Return (PyStr "first answer"))]), 1%nat))
    by reflexivity.
  assert (H5 : py_getattr (PyObject "Reply"
                             [("text", Return (PyStr "first answer"))]) "text"
               = Return (PyStr "first answer")) by reflexivity.
  split; [exact H1 |]. split; [exact H2 |]. split; [exact H3 |].
  split; [exact H4 |]. split; [exact H5 |].
  exact (agent_handler_success numbering_runtime open_roles_request sample_process
           _ _ _ _ _ H1 H2 H3 H4 H5).
Defined.

Lemma agent_handler_missing_query_witness :
  json empty_object_request = Return (PyDict [])
  /\ (assoc "query" [] = None \/ assoc "query" [] = Some (PyStr EmptyString))
  /\ agent_handler numbering_runtime empty_object_request sample_process
     = (Return {| body := Json (PyDict [("error", PyStr "Missing 'query' field in request")]);
                  status_code := 400;
                  mimetype := "application/json" |},
        sample_process)
  /\ invocations (snd (agent_handler numbering_runtime empty_object_request sample_process))
     = invocations sample_process.
Proof.
  assert (H1 : json empty_object_request = Return (PyDict [])) by reflexivity.
  assert (H2 : assoc "query" [] = None \/ assoc "query" [] = Some (PyStr EmptyString))
    by (left; reflexivity).
  split; [exact H1 |]. split; [exact H2 |].
  exact (agent_handler_missing_query numbering_runtime empty_object_request
           sample_process [] H1 H2).
Defined.

Lemma agent_handler_falsy_query_witness :
  json zero_query_request = Return (PyDict [("query", PyInt 0)])
  /\ assoc "query" [("query", PyInt 0)] = Some (PyInt 0)
  /\ truthy (PyInt 0) = false
  /\ agent_handler numbering_runtime zero_query_request sample_process
     = (Return {| body := Json (PyDict [("error", PyStr "Missing 'query' field in request")]);
                  status_code := 400;
                  mimetype := "application/json" |},
        sample_process)
  /\ invocations (snd (agent_handler numbering_runtime zero_query_request sample_process))
     = invocations sample_process.
Proof.
  assert (H1 : json zero_query_request = Return (PyDict [("query", PyInt 0)]))
    by reflexivity.
  assert (H2 : assoc "query" [("query", PyInt 0)] = Some (PyInt 0)) by reflexivity.
  assert (H3 : truthy (PyInt 0) = false) by reflexivity.
  split; [exact H1 |]. split; [exact H2 |]. split; [exact H3 |].
  exact (proj2 (agent_handler_falsy_query numbering_runtime)
           zero_query_request sample_process _ _ H1 H2 H3).
Defined.

Lemma agent_handler_unparseable_body_witness :
  (json malformed_request = Raise BadRequest
   /\ isinstance_Exception BadRequest = true
   /\ agent_handler numbering_runtime malformed_request sample_process
      = (Return {| body := Json (PyDict [("error", PyStr (str BadRequest))]);
                   status_code := 500;
                   mimetype := "application/json" |}, sample_process))
  /\ (json null_body_request = Return PyNone
      /\ agent_handler numbering_runtime null_body_request sample_process
         = (Return {| body := Json (PyDict
                        [("error", PyStr "'NoneType' object has no attribute 'get'")]);
                      status_code := 500;
                      mimetype := "application/json" |}, sample_process)).
Proof.
  assert (H1 : json malformed_request = Raise BadRequest) by reflexivity.
  assert (H2 : isinstance_Exception BadRequest = true) by reflexivity.
  assert (H3 : json null_body_request = Return PyNone) by reflexivity.
  split.
  - split; [exact H1 |]. split; [exact H2 |].
    exact (proj1 (agent_handler_unparseable_body numbering_runtime
                    malformed_request sample_process) BadRequest H1 H2).
  - split; [exact H3 |].
    exact (proj1 (proj2 (agent_handler_unparseable_body numbering_runtime
                           null_body_request sample_process)) H3).
Defined.

Lemma agent_handler_catches_Exception_witness :
  (json open_roles_request = Return (PyDict [("query", PyStr open_roles_query)])
   /\ py_get (PyDict [("query", PyStr open_roles_query)]) "query"
      = Return (PyStr open_roles_query)
   /\ truthy (PyStr open_roles_query) = true)
  /\ (failing_runtime (root_agent (globals sample_process))
        (PyStr open_roles_query) (runtime sample_process)
      = (Raise QuotaExceeded, 1%nat)
      /\ isinstance_Exception QuotaExceeded = true
      /\ agent_handler failing_runtime open_roles_request sample_process
         = (Return (error_response 500 "quota exceeded"),
            after_call sample_process (PyStr open_roles_query) 1%nat))
  /\ (lazy_runtime (root_agent (globals sample_process))
        (PyStr open_roles_query) (runtime sample_process)
      = (Return (PyObject "Reply" [("text", Raise KeyError)]), 1%nat)
      /\ py_getattr (PyObject "Reply" [("text", Raise KeyError)]) "text"
         = Raise KeyError
      /\ isinstance_Exception KeyError = true
      /\ agent_handler lazy_runtime open_roles_request sample_process
         = (Return (error_response 500 "'candidates'"),
            after_call sample_process (PyStr open_roles_query) 1%nat))
  /\ (interrupted_runtime (root_agent (globals sample_process))
        (PyStr open_roles_query) (runtime sample_process)
      = (Raise KeyboardInterrupt, 1%nat)
      /\ isinstance_Exception KeyboardInterrupt = false
      /\ agent_handler interrupted_runtime open_roles_request sample_process
         = (Raise KeyboardInterrupt,
            after_call sample_process (PyStr open_roles_query) 1%nat)).
Proof.
  assert (H1 : json open_roles_request
               = Return (PyDict [("query", PyStr open_roles_query)]))
    by reflexivity.
  assert (H2 : py_get (PyDict [("query", PyStr open_roles_query)]) "query"
               = Return (PyStr open_roles_query)) by reflexivity.
  assert (H3 : truthy (PyStr open_roles_query) = true) by reflexivity.
  assert (H4 : failing_runtime (root_agent (globals sample_process))
                 (PyStr open_roles_query) (runtime sample_process)
               = (Raise QuotaExceeded, 1%nat)) by reflexivity.
  assert (H5 : isinstance_Exception QuotaExceeded = true) by reflexivity.
  assert (H6 : lazy_runtime (root_agent (globals sample_process))
                 (PyStr open_roles_query) (runtime sample_process)
               = (Return (PyObject "Reply" [("text", Raise KeyError)]), 1%nat))
    by reflexivity.
  assert (H7 : py_getattr (PyObject "Reply" [("text", Raise KeyError)]) "text"
               = Raise KeyError) by reflexivity.
  assert (H8 : isinstance_Exception KeyError = true) by reflexivity.
  assert (H9 : interrupted_runtime (root_agent (globals sample_process))
                 (PyStr open_roles_query) (runtime sample_process)
               = (Raise KeyboardInterrupt, 1%nat)) by reflexivity.
  assert (H10 : isinstance_Exception KeyboardInterrupt = false) by reflexivity.
  split; [split; [exact H1 |]; split; [exact H2 | exact H3] |].
  split; [split; [exact H4 |]; split; [exact H5 |] |].
  - exact (proj1 (proj1 (proj2 (agent_handler_catches_Exception failing_runtime
                                  open_roles_request sample_process))
                    _ _ _ _ QuotaExceeded H1 H2 H3 H4 (or_introl eq_refl)) H5).
  - split; [split; [exact H6 |]; split; [exact H7 |]; split; [exact H8 |] |].
    + exact (proj1 (proj1 (proj2 (agent_handler_catches_Exception lazy_runtime
                                    open_roles_request sample_process))
                      _ _ _ _ KeyError H1 H2 H3 H6
                      (or_intror (or_introl
                         (ex_intro _ _ (conj eq_refl H7))))) H8).
    + split; [exact H9 |]. split; [exact H10 |].
      exact (proj2 (proj1 (proj2 (agent_handler_catches_Exception
                                    interrupted_runtime
                                    open_roles_request sample_process))
                      _ _ _ _ KeyboardInterrupt H1 H2 H3 H9
                      (or_introl eq_refl)) H10).
Defined.

(** An exception that does not derive from Exception goes through the
    handler: with the runtime interrupted by SystemExit, the view function
    raises it and returns no response. *)
Lemma agent_handler_lets_SystemExit_through :
  exiting_runtime (root_agent (globals sample_process))
    (PyStr open_roles_query) (runtime sample_process)
  = (Raise SystemExit, 1%nat)
  /\ agent_handler exiting_runtime open_roles_request sample_process
     = (Raise SystemExit, after_call sample_process (PyStr open_roles_query) 1%nat)
  /\ fst (agent_handler exiting_runtime open_roles_request sample_process)
     <> Return (error_response 500 (str SystemExit)).
Proof.
  split; [reflexivity |]. split; [vm_compute; reflexivity |].
  vm_compute. discriminate.
Qed.

Lemma agent_handler_response_schema_witness :
  agent_handler opaque_runtime open_roles_request sample_process
  = (Return (error_response 500 "Object of type Content is not JSON serializable"),
     after_call sample_process (PyStr open_roles_query) 1%nat)
  /\ well_formed (error_response 500 "Object of type Content is not JSON serializable")
     = true
  /\ ((status_code (error_response 500 "Object of type Content is not JSON serializable")
       = 200
       /\ exists text,
           body (error_response 500 "Object of type Content is not JSON serializable")
           = Json (PyDict [("response", text); ("status", PyStr "ok")]))
      \/ ((status_code (error_response 500 "Object of type Content is not JSON serializable")
           = 400
           \/ status_code (error_response 500 "Object of type Content is not JSON serializable")
              = 500)
          /\ exists message,
              body (error_response 500 "Object of type Content is not JSON serializable")
              = Json (PyDict [("error", PyStr message)]))).
Proof.
  assert (H1 : agent_handler opaque_runtime open_roles_request sample_process
               = (Return (error_response 500
                            "Object of type Content is not JSON serializable"),
                  after_call sample_process (PyStr open_roles_query) 1%nat))
    by (vm_compute; reflexivity).
  split; [exact H1 |].
  exact (agent_handler_response_schema opaque_runtime open_roles_request
           sample_process _ _ H1).
Defined.

Lemma root_agent_configuration_witness :
  (load_dotenv ∅ pro_environ !! "ROOT_AGENT_MODEL" = Some "gemini-2.5-pro"
   /\ ROOT_AGENT_MODEL (startup tt "prompt" ∅ pro_environ) = "gemini-2.5-pro")
  /\ (pro_environ !! "ROOT_AGENT_MODEL" = Some "gemini-2.5-pro"
      /\ ROOT_AGENT_MODEL (startup tt "prompt" pro_environ pro_environ) = "gemini-2.5-pro")
  /\ (load_dotenv ∅ ∅ !! "ROOT_AGENT_MODEL" = None
      /\ ROOT_AGENT_MODEL (startup tt "prompt" ∅ ∅) = "gemini-2.5-flash")
  /\ (load_dotenv pro_environ ∅ !! "ROOT_AGENT_MODEL"
      = load_dotenv ∅ pro_environ !! "ROOT_AGENT_MODEL"
      /\ startup tt "prompt" pro_environ ∅ = startup tt "prompt" ∅ pro_environ).
Proof.
  assert (H1 : load_dotenv ∅ pro_environ !! "ROOT_AGENT_MODEL" = Some "gemini-2.5-pro")
    by (vm_compute; reflexivity).
  assert (H2 : pro_environ !! "ROOT_AGENT_MODEL" = Some "gemini-2.5-pro")
    by (vm_compute; reflexivity).
  assert (H3 : load_dotenv (∅ : gmap string string) ∅ !! "ROOT_AGENT_MODEL" = None)
    by (vm_compute; reflexivity).
  assert (H4 : load_dotenv pro_environ ∅ !! "ROOT_AGENT_MODEL"
               = load_dotenv ∅ pro_environ !! "ROOT_AGENT_MODEL")
    by (vm_compute; reflexivity).
  split; [split; [exact H1 |] | split; [split; [exact H2 |] | split; [split; [exact H3 |] | split; [exact H4 |]]]].
  - exact (proj1 (root_agent_configuration tt "prompt" ∅ pro_environ) _ H1).
  - exact (proj1 (proj2 (root_agent_configuration tt "prompt" pro_environ pro_environ)) _ H2).
  - exact (proj1 (proj2 (proj2 (root_agent_configuration tt "prompt" ∅ ∅))) H3).
  - exact (proj1 (proj2 (proj2 (proj2 (proj2 (proj2 (proj2 (proj2
             (root_agent_configuration tt "prompt" ∅ pro_environ))))))))
             pro_environ ∅ H4).
Defined.

Lemma same_query_twice_witness :
  json open_roles_request = Return (PyDict [("query", PyStr open_roles_query)])
  /\ assoc "query" [("query", PyStr open_roles_query)] = Some (PyStr open_roles_query)
  /\ open_roles_query <> EmptyString
  /\ failing_runtime (root_agent (globals sample_process))
       (PyStr open_roles_query) (runtime sample_process)
     = (Raise QuotaExceeded, 1%nat)
  /\ failing_runtime (root_agent (globals sample_process))
       (PyStr open_roles_query) 1%nat
     = (Raise QuotaExceeded, 2%nat)
  /\ exists out1 out2,
      serve failing_runtime
        [POST_agent open_roles_request; POST_agent open_roles_request]
        sample_process
      = ([out1; out2],
         {| globals := globals sample_process;
            runtime := 2%nat;
            invocations := invocations sample_process
                           ++ [PyStr open_roles_query; PyStr open_roles_query] |})
      /\ Forall (fun out =>
                   match out with
                   | Return r => well_formed r = true
                   | Raise e => isinstance_Exception e = false
                   end) [out1; out2].
Proof.
  assert (H1 : json open_roles_request
               = Return (PyDict [("query", PyStr open_roles_query)]))
    by reflexivity.
  assert (H2 : assoc "query" [("query", PyStr open_roles_query)]
               = Some (PyStr open_roles_query)) by reflexivity.
  assert (H3 : open_roles_query <> EmptyString) by (vm_compute; discriminate).
  assert (H4 : failing_runtime (root_agent (globals sample_process))
                 (PyStr open_roles_query) (runtime sample_process)
               = (Raise QuotaExceeded, 1%nat)) by reflexivity.
  assert (H5 : failing_runtime (root_agent (globals sample_process))
                 (PyStr open_roles_query) 1%nat
               = (Raise QuotaExceeded, 2%nat)) by reflexivity.
  split; [exact H1 |]. split; [exact H2 |]. split; [exact H3 |].
  split; [exact H4 |]. split; [exact H5 |].
  destruct (proj1 same_query_twice) as [respond Hrespond].
  exists (respond (Raise QuotaExceeded)), (respond (Raise QuotaExceeded)).
  exact (Hrespond unit nat failing_runtime sample_process
           open_roles_request open_roles_request _ _ _ _ _ _ _
           H1 H1 H2 H2 H3 H4 H5).
Defined.

(** * The further properties on sample requests *)

Lemma agent_handler_400_iff_witness :
  (exists fields,
      json empty_object_request = Return (PyDict fields)
      /\ (assoc "query" fields = None
          \/ exists v, assoc "query" fields = Some v /\ truthy v = false))
  /\ (exists r p',
         agent_handler numbering_runtime empty_object_request sample_process
         = (Return r, p')
         /\ status_code r = 400).
Proof.
  assert (H : exists fields,
             json empty_object_request = Return (PyDict fields)
             /\ (assoc "query" fields = None
                 \/ exists v, assoc "query" fields = Some v /\ truthy v = false)).
  { exists []. split; [reflexivity | left; reflexivity]. }
  split; [exact H |].
  exact (proj2 (agent_handler_400_iff numbering_runtime empty_object_request
                  sample_process) H).
Defined.

Lemma agent_handler_200_only_if_witness :
  agent_handler numbering_runtime open_roles_request sample_process
  = (Return (ok_response (PyStr "first answer")),
     after_call sample_process (PyStr open_roles_query) 1%nat)
  /\ status_code (ok_response (PyStr "first answer")) = 200
  /\ exists fields q response_data text rt,
      json open_roles_request = Return (PyDict fields)
      /\ assoc "query" fields = Some q
      /\ truthy q = true
      /\ numbering_runtime (root_agent (globals sample_process)) q
           (runtime sample_process)
         = (Return response_data, rt)
      /\ py_getattr response_data "text" = Return text
      /\ jsonify (PyDict [("response", text); ("status", PyStr "ok")])
         = Return (ok_response (PyStr "first answer"))
      /\ after_call sample_process (PyStr open_roles_query) 1%nat
         = after_call sample_process q rt.
Proof.
  assert (H1 : agent_handler numbering_runtime open_roles_request sample_process
               = (Return (ok_response (PyStr "first answer")),
                  after_call sample_process (PyStr open_roles_query) 1%nat))
    by (vm_compute; reflexivity).
  assert (H2 : status_code (ok_response (PyStr "first answer")) = 200)
    by reflexivity.
  split; [exact H1 |]. split; [exact H2 |].
  exact (agent_handler_200_only_if numbering_runtime open_roles_request
           sample_process _ _ H1 H2).
Defined.

Lemma agent_handler_forwards_any_true_value_witness :
  json number_query_request = Return (PyDict [("query", PyInt 5)])
  /\ assoc "query" [("query", PyInt 5)] = Some (PyInt 5)
  /\ truthy (PyInt 5) = true
  /\ snd (agent_handler numbering_runtime number_query_request sample_process)
     = after_call sample_process (PyInt 5)
         (snd (numbering_runtime (root_agent (globals sample_process))
                 (PyInt 5) (runtime sample_process))).
Proof.
  assert (H1 : json number_query_request = Return (PyDict [("query", PyInt 5)]))
    by reflexivity.
  assert (H2 : assoc "query" [("query", PyInt 5)] = Some (PyInt 5))
    by reflexivity.
  assert (H3 : truthy (PyInt 5) = true) by reflexivity.
  split; [exact H1 |]. split; [exact H2 |]. split; [exact H3 |].
  exact (agent_handler_forwards_any_true_value numbering_runtime
           number_query_request sample_process _ _ H1 H2 H3).
Defined.

Lemma agent_handler_500_only_if_witness :
  agent_handler lazy_runtime open_roles_request sample_process
  = (Return (error_response 500 "'candidates'"),
     after_call sample_process (PyStr open_roles_query) 1%nat)
  /\ status_code (error_response 500 "'candidates'") = 500
  /\ exists e,
      isinstance_Exception e = true
      /\ error_response 500 "'candidates'" = error_response 500 (str e).
Proof.
  assert (H1 : agent_handler lazy_runtime open_roles_request sample_process
               = (Return (error_response 500 "'candidates'"),
                  after_call sample_process (PyStr open_roles_query) 1%nat))
    by (vm_compute; reflexivity).
  assert (H2 : status_code (error_response 500 "'candidates'") = 500)
    by reflexivity.
  split; [exact H1 |]. split; [exact H2 |].
  destruct (agent_handler_500_only_if lazy_runtime open_roles_request
              sample_process _ _ H1 H2) as (e & Hexc & Hr & _).
  exists e. split; [exact Hexc | exact Hr].
Defined.

Lemma agent_handler_reads_only_query_witness :
  json open_roles_request = Return (PyDict [("query", PyStr open_roles_query)])
  /\ json annotated_request
     = Return (PyDict [("session", PyInt 7);
                       ("query", PyStr open_roles_query);
                       ("debug", PyBool true)])
  /\ py_get (PyDict [("query", PyStr open_roles_query)]) "query"
     = py_get (PyDict [("session", PyInt 7);
                       ("query", PyStr open_roles_query);
                       ("debug", PyBool true)]) "query"
  /\ agent_handler numbering_runtime open_roles_request sample_process
     = agent_handler numbering_runtime annotated_request sample_process.
Proof.
  assert (H1 : json open_roles_request
               = Return (PyDict [("query", PyStr open_roles_query)]))
    by reflexivity.
  assert (H2 : json annotated_request
               = Return (PyDict [("session", PyInt 7);
                                 ("query", PyStr open_roles_query);
                                 ("debug", PyBool true)])) by reflexivity.
  assert (H3 : py_get (PyDict [("query", PyStr open_roles_query)]) "query"
               = py_get (PyDict [("session", PyInt 7);
                                 ("query", PyStr open_roles_query);
                                 ("debug", PyBool true)]) "query")
    by reflexivity.
  split; [exact H1 |]. split; [exact H2 |]. split; [exact H3 |].
  exact (agent_handler_reads_only_query numbering_runtime open_roles_request
           annotated_request sample_process _ _ H1 H2 H3).
Defined.

Lemma agent_handler_mimetype_witness :
  agent_handler failing_runtime open_roles_request sample_process
  = (Return (error_response 500 "quota exceeded"),
     after_call sample_process (PyStr open_roles_query) 1%nat)
  /\ mimetype (error_response 500 "quota exceeded") = "application/json".
Proof.
  assert (H1 : agent_handler failing_runtime open_roles_request sample_process
               = (Return (error_response 500 "quota exceeded"),
                  after_call sample_process (PyStr open_roles_query) 1%nat))
    by (vm_compute; reflexivity).
  split; [exact H1 |].
  exact (agent_handler_mimetype failing_runtime open_roles_request
           sample_process _ _ H1).
Defined.

Lemma ROOT_AGENT_MODEL_precedence_witness :
  (∅ : gmap string string) !! "ROOT_AGENT_MODEL" = None
  /\ dotenv_flash_lite !! "ROOT_AGENT_MODEL" = Some "gemini-2.5-flash-lite"
  /\ model (root_agent (startup tt "prompt" dotenv_flash_lite ∅))
     = "gemini-2.5-flash-lite".
Proof.
  assert (H1 : (∅ : gmap string string) !! "ROOT_AGENT_MODEL" = None)
    by (vm_compute; reflexivity).
  assert (H2 : dotenv_flash_lite !! "ROOT_AGENT_MODEL"
               = Some "gemini-2.5-flash-lite") by (vm_compute; reflexivity).
  split; [exact H1 |]. split; [exact H2 |].
  exact (proj1 (proj2 (ROOT_AGENT_MODEL_precedence tt "prompt"
                         dotenv_flash_lite ∅)) _ H1 H2).
Defined.
